(** * wxpay/payment: unified order, client parameters and paid notifications

    A shallow embedding of [wxpay/payment/payment.go] and the properties of
    its order assembly, two-tier status check, client-parameter generation
    and notification handling.

    Go strings are byte strings, so they are [string] here (a list of
    bytes); a Go [map[string]string] is a [gmap string string]; a Go
    [(T, error)] result is a pair [T * option error]; a nil pointer
    dereference is the [Panicked] outcome of the call monad.

    The package imports more than it defines.  What it needs of [strconv],
    [fmt] and [etree] is modelled after the documented behaviour of those
    libraries; random strings, the IP resolver, the signer, HTTP, the XML
    codec and the formatting of [time] are reached through the [Env]
    interface, and the calls with an effect are recorded in a trace. *)

From stdpp Require Import gmap strings list sorting.
From Stdlib Require Import ZArith String Ascii DecimalString DecimalPos.
From Stdlib Require Floats.

Open Scope string_scope.
Open Scope Z_scope.

Set Warnings "-register-all".

(** ** Go basics *)

(** [[]byte]. *)
Definition bytes := list Byte.byte.

(** The built-in [len] of a string: its number of bytes. *)
Definition len (s : string) : Z := Z.of_nat (String.length s).

(** Go's [error] values.  [errors_New] is [errors.New]; [lib_error] stands for
    an error made by an imported package. *)
Inductive error :=
| errors_New (msg : string)
| lib_error (msg : string).

Definition float64 := PrimFloat.float.

(** ** strconv *)

(** The functions of Go's [strconv] that the package calls, in base 10 and
    on 64 bits. *)
Module strconv.

(** [strconv.Itoa] and [strconv.FormatInt(_, 10)]. *)
Definition FormatInt10 (i : Z) : string := NilZero.string_of_int (Z.to_int i).
Definition Itoa (i : Z) : string := FormatInt10 i.

(** The two failures of the parsers. *)
Inductive NumError := ErrSyntax | ErrRange.

Definition maxUint64 : Z := 2 ^ 64 - 1.

Definition is_digit (c : ascii) : bool :=
  let n := Z.of_N (N_of_ascii c) in (48 <=? n) && (n <=? 57).

Definition digit_val (c : ascii) : Z := Z.of_N (N_of_ascii c) - 48.

(** The digit loop of [ParseUint(s, 10, 64)]: the first byte that is not a
    decimal digit is a syntax error; an overflow stops the loop at once with
    the largest value. *)
Fixpoint ParseUint_loop (s : string) (n : Z) : Z * option NumError :=
  match s with
  | EmptyString => (n, None)
  | String c s' =>
      if negb (is_digit c) then (0, Some ErrSyntax)
      else if maxUint64 / 10 + 1 <=? n then (maxUint64, Some ErrRange)
      else
        let n := n * 10 in
        let n1 := n + digit_val c in
        if maxUint64 <? n1 then (maxUint64, Some ErrRange)
        else ParseUint_loop s' n1
  end.

Definition ParseUint10_64 (s : string) : Z * option NumError :=
  match s with
  | EmptyString => (0, Some ErrSyntax)
  | _ => ParseUint_loop s 0
  end.

(** [strconv.ParseInt(s, 10, 64)]. *)
Definition ParseInt10_64 (s : string) : Z * option NumError :=
  match s with
  | EmptyString => (0, Some ErrSyntax)
  | String c s' =>
      let plus := Ascii.eqb c "+" in
      let neg := Ascii.eqb c "-" in
      let s1 := if plus || neg then s' else s in
      let '(un, err) := ParseUint10_64 s1 in
      let cutoff := 2 ^ 63 in
      match err with
      | Some ErrSyntax => (0, Some ErrSyntax)
      | _ =>
          if negb neg && (cutoff <=? un) then (cutoff - 1, Some ErrRange)
          else if neg && (cutoff <? un) then (- cutoff, Some ErrRange)
          else (if neg then - un else un, None)
      end
  end.

End strconv.

(** ** fmt *)

(** [fmt.Sprintf] for the formats of this package: literal text and the verb
    [%d], each verb consuming the next integer operand. *)
Fixpoint Sprintf (format : string) (numbers : list Z) : string :=
  match format with
  | String "%" (String "d" rest) =>
      match numbers with
      | n :: numbers' => strconv.Itoa n +:+ Sprintf rest numbers'
      | [] => "%!d(MISSING)" +:+ Sprintf rest []
      end
  | String c rest => String c (Sprintf rest numbers)
  | EmptyString => EmptyString
  end.

(** ** etree *)

(** An element of the generic XML tree: its tag, the character data that
    follows its opening tag (what [Text] returns) and its child elements. *)
Inductive Element := mkElement (Tag : string) (CharData : string) (Child : list Element).

Definition Tag (e : Element) : string := let 'mkElement t _ _ := e in t.
Definition CharData (e : Element) : string := let 'mkElement _ d _ := e in d.
Definition Child (e : Element) : list Element := let 'mkElement _ _ c := e in c.

(** The first child carrying the tag, or nil. *)
Fixpoint find_child (tag : string) (cs : list Element) : option Element :=
  match cs with
  | [] => None
  | c :: cs' => if String.eqb (Tag c) tag then Some c else find_child tag cs'
  end.

(** ** time *)

(** A [time.Time]: the seconds elapsed since January 1 of year 1, 00:00:00
    UTC, the nanoseconds within that second, and the offset east of UTC, in
    seconds, that its location has at that instant. *)
Record Time := mkTime { Time_sec : Z; Time_nsec : Z; Time_offset : Z }.

(** [(t Time) IsZero]: the instant is January 1 of year 1, 00:00:00 UTC. *)
Definition Time_IsZero (t : Time) : bool := (Time_sec t =? 0) && (Time_nsec t =? 0).

(** ** net *)

(** [net.IP]. *)
Definition net_IP := bytes.

(** ** Constants *)

Definition baseURL := "https://api.mch.weixin.qq.com".
Definition unifyAPI := "/pay/unifiedorder".
Definition paymentTimeFormat := "20060102150405".

(** ** The structs of the package *)

Record Params := mkParams {
  Params_Timestamp : string;
  Params_NonceStr : string;
  Params_SignType : string;
  Params_PaySign : string;
  Params_Package : string;
}.

Record response := mkresponse {
  ReturnCode : string;
  ReturnMsg : string;
  ResultCode : string;
  ErrCode : string;
  ErrCodeDes : string;
}.

Record PaidResponse := mkPaidResponse {
  PaidResponse_AppID : string;
  PaidResponse_MchID : string;
  PaidResponse_PrePayID : string;
  PaidResponse_Sign : string;
  PaidResponse_NonceStr : string;
}.

Record paidResponse := mkpaidResponse {
  paidResponse_response : response;
  paidResponse_PaidResponse : PaidResponse;
}.

Record CouponResponseModel := mkCouponResponseModel {
  CouponId : string;
  CouponFee : Z;
}.

Record PaidNotify := mkPaidNotify {
  PaidNotify_AppID : string;
  PaidNotify_MchID : string;
  PaidNotify_TotalFee : Z;
  PaidNotify_NonceStr : string;
  PaidNotify_Sign : string;
  PaidNotify_SignType : string;
  PaidNotify_OpenID : string;
  PaidNotify_TradeType : string;
  PaidNotify_Bank : string;
  PaidNotify_Settlement : float64;
  PaidNotify_FeeType : string;
  PaidNotify_CashFee : float64;
  PaidNotify_CashFeeType : string;
  PaidNotify_CouponFee : float64;
  PaidNotify_CouponCount : Z;
  PaidNotify_TransactionID : string;
  PaidNotify_Attach : string;
  PaidNotify_IsSubscribe : string;
  PaidNotify_OutTradeNo : string;
  PaidNotify_Timeend : string;
  PaidNotify_Coupons : list CouponResponseModel;
}.

Record paidNotify := mkpaidNotify {
  paidNotify_response : response;
  paidNotify_PaidNotify : PaidNotify;
}.

Record replay := mkreplay {
  replay_Code : string;
  replay_Msg : string;
}.

(** [ntf.Coupons = append(ntf.Coupons, m)]. *)
Definition append_Coupon (ntf : paidNotify) (m : CouponResponseModel) : paidNotify :=
  let n := paidNotify_PaidNotify ntf in
  {| paidNotify_response := paidNotify_response ntf;
     paidNotify_PaidNotify :=
       {| PaidNotify_AppID := PaidNotify_AppID n;
          PaidNotify_MchID := PaidNotify_MchID n;
          PaidNotify_TotalFee := PaidNotify_TotalFee n;
          PaidNotify_NonceStr := PaidNotify_NonceStr n;
          PaidNotify_Sign := PaidNotify_Sign n;
          PaidNotify_SignType := PaidNotify_SignType n;
          PaidNotify_OpenID := PaidNotify_OpenID n;
          PaidNotify_TradeType := PaidNotify_TradeType n;
          PaidNotify_Bank := PaidNotify_Bank n;
          PaidNotify_Settlement := PaidNotify_Settlement n;
          PaidNotify_FeeType := PaidNotify_FeeType n;
          PaidNotify_CashFee := PaidNotify_CashFee n;
          PaidNotify_CashFeeType := PaidNotify_CashFeeType n;
          PaidNotify_CouponFee := PaidNotify_CouponFee n;
          PaidNotify_CouponCount := PaidNotify_CouponCount n;
          PaidNotify_TransactionID := PaidNotify_TransactionID n;
          PaidNotify_Attach := PaidNotify_Attach n;
          PaidNotify_IsSubscribe := PaidNotify_IsSubscribe n;
          PaidNotify_OutTradeNo := PaidNotify_OutTradeNo n;
          PaidNotify_Timeend := PaidNotify_Timeend n;
          PaidNotify_Coupons := PaidNotify_Coupons n ++ [m] |} |}.

(** [Order]: what the caller declares. *)
Record Order := mkOrder {
  Order_AppID : string;
  Order_MchID : string;
  Order_TotalFee : Z;
  Order_NotifyURL : string;
  Order_OpenID : string;
  Order_Body : string;
  Order_OutTradeNo : string;
  Order_IP : string;
  Order_NoCredit : bool;
  Order_StartedAt : Time;
  Order_ExpiredAt : Time;
  Order_Tag : string;
  Order_Detail : string;
  Order_Attach : string;
}.

(** [order]: everything that goes on the wire.  Its own [NoCredit],
    [StartedAt] and [ExpiredAt] shadow those of the embedded [Order]. *)
Record order := mkorder {
  order_Order : Order;
  order_Sign : string;
  order_NonceStr : string;
  order_TradeType : string;
  order_SignType : string;
  order_NoCredit : string;
  order_StartedAt : string;
  order_ExpiredAt : string;
}.

Definition Order_set_IP (o : Order) (ip : string) : Order :=
  {| Order_AppID := Order_AppID o; Order_MchID := Order_MchID o;
     Order_TotalFee := Order_TotalFee o; Order_NotifyURL := Order_NotifyURL o;
     Order_OpenID := Order_OpenID o; Order_Body := Order_Body o;
     Order_OutTradeNo := Order_OutTradeNo o; Order_IP := ip;
     Order_NoCredit := Order_NoCredit o; Order_StartedAt := Order_StartedAt o;
     Order_ExpiredAt := Order_ExpiredAt o; Order_Tag := Order_Tag o;
     Order_Detail := Order_Detail o; Order_Attach := Order_Attach o |}.

(** [od.IP = ip]: the field of the embedded [Order]. *)
Definition order_set_IP (od : order) (ip : string) : order :=
  {| order_Order := Order_set_IP (order_Order od) ip; order_Sign := order_Sign od;
     order_NonceStr := order_NonceStr od; order_TradeType := order_TradeType od;
     order_SignType := order_SignType od; order_NoCredit := order_NoCredit od;
     order_StartedAt := order_StartedAt od; order_ExpiredAt := order_ExpiredAt od |}.

Definition order_set_StartedAt (od : order) (s : string) : order :=
  {| order_Order := order_Order od; order_Sign := order_Sign od;
     order_NonceStr := order_NonceStr od; order_TradeType := order_TradeType od;
     order_SignType := order_SignType od; order_NoCredit := order_NoCredit od;
     order_StartedAt := s; order_ExpiredAt := order_ExpiredAt od |}.

Definition order_set_ExpiredAt (od : order) (s : string) : order :=
  {| order_Order := order_Order od; order_Sign := order_Sign od;
     order_NonceStr := order_NonceStr od; order_TradeType := order_TradeType od;
     order_SignType := order_SignType od; order_NoCredit := order_NoCredit od;
     order_StartedAt := order_StartedAt od; order_ExpiredAt := s |}.

Definition order_set_NoCredit (od : order) (s : string) : order :=
  {| order_Order := order_Order od; order_Sign := order_Sign od;
     order_NonceStr := order_NonceStr od; order_TradeType := order_TradeType od;
     order_SignType := order_SignType od; order_NoCredit := s;
     order_StartedAt := order_StartedAt od; order_ExpiredAt := order_ExpiredAt od |}.

Definition order_set_Sign (od : order) (s : string) : order :=
  {| order_Order := order_Order od; order_Sign := s;
     order_NonceStr := order_NonceStr od; order_TradeType := order_TradeType od;
     order_SignType := order_SignType od; order_NoCredit := order_NoCredit od;
     order_StartedAt := order_StartedAt od; order_ExpiredAt := order_ExpiredAt od |}.

(** ** Collaborators and the call monad *)

(** What the package imports: [util] (random strings, the IP resolver, the
    signer, the HTTP POST), [net], [time], [encoding/xml] and [etree].  Each
    field is the answer the collaborator gives. *)
Class Env := {
  IP_String : net_IP -> string;
  Time_Format : Time -> string -> string;
  util_RandomString : Z -> string;
  util_FetchIP : net_IP * option error;
  util_SignByMD5 : gmap string string -> string -> string * option error;
  util_PostXML : string -> order -> bytes * option error;
  xml_Unmarshal_paidResponse : bytes -> paidResponse * option error;
  xml_Unmarshal_paidNotify : bytes -> paidNotify * option error;
  xml_Marshal_replay : replay -> bytes * option error;
  etree_ReadFromBytes : bytes -> Element * option error;
  time_Now_Unix : Z;
}.

(** [*http.Request]: what [ioutil.ReadAll(req.Body)] yields. *)
Record Request := mkRequest { Body_ReadAll : bytes * option error }.

(** [http.ResponseWriter]: the error [Write] answers with. *)
Record ResponseWriter := mkResponseWriter { Write_err : bytes -> option error }.

(** The calls with an effect outside the package (random source, IP
    resolver, signer, gateway, clock, the caller's decision function, the
    response), in the order they are made. *)
Inductive event :=
| RandomString_called (n : Z)
| FetchIP_called
| SignByMD5_called (data : gmap string string) (key : string)
| PostXML_called (url : string) (body : order)
| Now_called
| callback_called (ntf : PaidNotify)
| WriteHeader_called (status : Z)
| Write_called (b : bytes).

(** A run either returns or panics (nil pointer dereference). *)
Inductive outcome (A : Type) :=
| Returned (a : A)
| Panicked (msg : string).
Arguments Returned {A} a.
Arguments Panicked {A} msg.

Definition M (A : Type) : Type := list event -> outcome A * list event.

Definition ret {A} (a : A) : M A := fun t => (Returned a, t).

Definition bind {A B} (m : M A) (k : A -> M B) : M B :=
  fun t =>
    match m t with
    | (Returned a, t') => k a t'
    | (Panicked msg, t') => (Panicked msg, t')
    end.

Definition panic {A} (msg : string) : M A := fun t => (Panicked msg, t).

(** A call to a collaborator: log it, take its answer. *)
Definition call {A} (e : event) (answer : A) : M A := fun t => (Returned answer, (t ++ [e])%list).

Definition run {A} (m : M A) : outcome A * list event := m [].

Global Instance M_ret : MRet M := @ret.
Global Instance M_bind : MBind M := fun A B k m => bind m k.

Section Payment.
Context `{Env}.

(** *** Order assembly *)

(** [(o *Order) prepare]. *)
Definition prepare (o : Order) (key : string) : M (order * option error) :=
  nonce ← call (RandomString_called 32) (util_RandomString 32);
  let od := {| order_Order := o; order_Sign := ""; order_NonceStr := nonce;
               order_TradeType := "JSAPI"; order_SignType := "MD5";
               order_NoCredit := ""; order_StartedAt := ""; order_ExpiredAt := "" |} in
  let signData : gmap string string := list_to_map [
    ("appid", Order_AppID (order_Order od));
    ("body", Order_Body (order_Order od));
    ("mch_id", Order_MchID (order_Order od));
    ("nonce_str", order_NonceStr od);
    ("notify_url", Order_NotifyURL (order_Order od));
    ("openid", Order_OpenID (order_Order od));
    ("out_trade_no", Order_OutTradeNo (order_Order od));
    ("total_fee", strconv.Itoa (Order_TotalFee (order_Order od)));
    ("trade_type", order_TradeType od);
    ("sign_type", order_SignType od) ] in
  r ← (if String.eqb (Order_IP o) ""
        then
          '(ip, err) ← call FetchIP_called util_FetchIP;
          match err with
          | Some e => ret (inl e)
          | None => ret (inr (order_set_IP od (IP_String ip)))
          end
        else ret (inr od));
  match r with
  | inl e => ret (od, Some e)
  | inr od =>
      let signData := <["spbill_create_ip" := Order_IP (order_Order od)]> signData in
      let '(od, signData) :=
        if negb (Time_IsZero (Order_StartedAt o))
        then let od := order_set_StartedAt od (Time_Format (Order_StartedAt o) paymentTimeFormat) in
             (od, <["time_start" := order_StartedAt od]> signData)
        else (od, signData) in
      let '(od, signData) :=
        if negb (Time_IsZero (Order_ExpiredAt o))
        then let od := order_set_ExpiredAt od (Time_Format (Order_ExpiredAt o) paymentTimeFormat) in
             (od, <["time_expire" := order_ExpiredAt od]> signData)
        else (od, signData) in
      let signData :=
        if negb (String.eqb (Order_Attach o) "")
        then <["attach" := Order_Attach (order_Order od)]> signData else signData in
      let signData :=
        if negb (String.eqb (Order_Detail o) "")
        then <["detail" := Order_Detail (order_Order od)]> signData else signData in
      let signData :=
        if negb (String.eqb (Order_Tag o) "")
        then <["goods_tag" := Order_Tag (order_Order od)]> signData else signData in
      let '(od, signData) :=
        if Order_NoCredit o
        then let od := order_set_NoCredit od "no_credit" in
             (od, <["limit_pay" := order_NoCredit od]> signData)
        else (od, signData) in
      '(sign, err) ← call (SignByMD5_called signData key) (util_SignByMD5 signData key);
      match err with
      | Some e => ret (od, Some e)
      | None => ret (order_set_Sign od sign, None)
      end
  end.

(** *** The two-tier status check *)

(** [(res response) Check]. *)
Definition Check (res : response) : option error :=
  if negb (String.eqb (ReturnCode res) "SUCCESS")
  then Some (errors_New ("交易失败: " +:+ ReturnMsg res))
  else if negb (String.eqb (ResultCode res) "SUCCESS")
  then Some (errors_New ("发生错误: " +:+ ErrCodeDes res))
  else None.

(** *** Client parameters *)

Definition zero_Params : Params :=
  {| Params_Timestamp := ""; Params_NonceStr := ""; Params_SignType := "";
     Params_PaySign := ""; Params_Package := "" |}.

(** [GetParams]. *)
Definition GetParams (appID key nonceStr prepayID : string) : M (Params * option error) :=
  if 32 <? len nonceStr
  then ret (zero_Params, Some (errors_New "随机字符串长度为32个字符以下"))
  else
    now ← call Now_called time_Now_Unix;
    let Timestamp := strconv.FormatInt10 now in
    let SignType := "MD5" in
    let Package := "prepay_id=" +:+ prepayID in
    '(PaySign, err) ←
      (let data : gmap string string := list_to_map [
         ("appId", appID);
         ("signType", SignType);
         ("nonceStr", nonceStr);
         ("package", Package);
         ("timeStamp", Timestamp) ] in
       call (SignByMD5_called data key) (util_SignByMD5 data key));
    ret ({| Params_Timestamp := Timestamp; Params_NonceStr := nonceStr;
            Params_SignType := SignType; Params_PaySign := PaySign;
            Params_Package := Package |}, err).

(** *** Submission *)

Definition zero_PaidResponse : PaidResponse :=
  {| PaidResponse_AppID := ""; PaidResponse_MchID := ""; PaidResponse_PrePayID := "";
     PaidResponse_Sign := ""; PaidResponse_NonceStr := "" |}.

(** [(o Order) Unify]. *)
Definition Unify (o : Order) (key : string) : M (PaidResponse * option error) :=
  '(reqData, err) ← prepare o key;
  match err with
  | Some e => ret (zero_PaidResponse, Some e)
  | None =>
      '(data, err) ← call (PostXML_called (baseURL +:+ unifyAPI) reqData)
                           (util_PostXML (baseURL +:+ unifyAPI) reqData);
      match err with
      | Some e => ret (zero_PaidResponse, Some e)
      | None =>
          let '(res, err) := xml_Unmarshal_paidResponse data in
          match err with
          | Some e => ret (zero_PaidResponse, Some e)
          | None =>
              match Check (paidResponse_response res) with
              | Some e => ret (zero_PaidResponse, Some e)
              | None => ret (paidResponse_PaidResponse res, None)
              end
          end
      end
  end.

(** *** Notifications *)

(** [newReplay]. *)
Definition newReplay (ok : bool) (msg : string) : replay :=
  {| replay_Code := if ok then "SUCCESS" else "FAIL"; replay_Msg := msg |}.

(** [(e *Element) SelectElement]: reads [e.Child], so a nil receiver panics. *)
Definition SelectElement (e : option Element) (tag : string) : M (option Element) :=
  match e with
  | None => panic "invalid memory address or nil pointer dereference"
  | Some e => ret (find_child tag (Child e))
  end.

(** [(e *Element) Text]: reads [e.Child], so a nil receiver panics. *)
Definition Text (e : option Element) : M string :=
  match e with
  | None => panic "invalid memory address or nil pointer dereference"
  | Some e => ret (CharData e)
  end.

(** [NewCouponResponseModel]: the error of [ParseInt] is dropped. *)
Definition NewCouponResponseModel (doc : option Element) (idFormat feeFormat : string)
    (numbers : list Z) : M CouponResponseModel :=
  let idName := Sprintf idFormat numbers in
  let feeName := Sprintf feeFormat numbers in
  idEl ← SelectElement doc idName;
  id ← Text idEl;
  feeEl ← SelectElement doc feeName;
  fee ← Text feeEl;
  let '(CouponFee, _) := strconv.ParseInt10_64 fee in
  ret {| CouponId := id; CouponFee := CouponFee |}.

(** The loop [for i := 0; i < ntf.CouponCount; i++], with [n] rounds left. *)
Fixpoint coupon_loop (root : option Element) (n : nat) (i : Z) (ntf : paidNotify)
    : M paidNotify :=
  match n with
  | O => ret ntf
  | S n' =>
      m ← NewCouponResponseModel root "coupon_id_%d" "coupon_fee_%d" [i];
      coupon_loop root n' (i + 1) (append_Coupon ntf m)
  end.

(** [HandlePaidNotify]. *)
Definition HandlePaidNotify (res : ResponseWriter) (req : Request)
    (fuck : PaidNotify -> bool * string) : M (option error) :=
  let '(body, err) := Body_ReadAll req in
  match err with
  | Some e => ret (Some e)
  | None =>
      let '(ntf, err) := xml_Unmarshal_paidNotify body in
      match err with
      | Some e => ret (Some e)
      | None =>
          r ← (if 0 <? PaidNotify_CouponCount (paidNotify_PaidNotify ntf)
                then
                  let '(doc, err) := etree_ReadFromBytes body in
                  match err with
                  | Some e => ret (inl e)
                  | None =>
                      root ← SelectElement (Some doc) "xml";
                      ntf ← coupon_loop root
                               (Z.to_nat (PaidNotify_CouponCount (paidNotify_PaidNotify ntf)))
                               0 ntf;
                      ret (inr ntf)
                  end
                else ret (inr ntf));
          match r with
          | inl e => ret (Some e)
          | inr ntf =>
              match Check (paidNotify_response ntf) with
              | Some e => ret (Some e)
              | None =>
                  '(ok, msg) ← call (callback_called (paidNotify_PaidNotify ntf))
                                     (fuck (paidNotify_PaidNotify ntf));
                  let replay := newReplay ok msg in
                  let '(b, err) := xml_Marshal_replay replay in
                  match err with
                  | Some e => ret (Some e)
                  | None =>
                      _ ← call (WriteHeader_called 200) tt;
                      err ← call (Write_called b) (Write_err res b);
                      ret err
                  end
              end
          end
      end
  end.

End Payment.

(** ** A calendar to run the package with *)

Module Calendar.

(** Year, month and day of the day numbered [days] from 0001-01-01
    (proleptic Gregorian calendar). *)
Definition civil (days : Z) : Z * Z * Z :=
  let z := days + 306 in
  let era := z / 146097 in
  let doe := z mod 146097 in
  let yoe := (doe - doe / 1460 + doe / 36524 - doe / 146096) / 365 in
  let doy := doe - (365 * yoe + yoe / 4 - yoe / 100) in
  let mp := (5 * doy + 2) / 153 in
  let d := doy - (153 * mp + 2) / 5 + 1 in
  let m := if mp <? 10 then mp + 3 else mp - 9 in
  let y := yoe + era * 400 + (if m <=? 2 then 1 else 0) in
  (y, m, d).

(** Decimal digits of [n], zero-padded to [width] digits. *)
Fixpoint pad (width : nat) (n : Z) : string :=
  match width with
  | O => ""
  | S w => pad w (n / 10) +:+ String (ascii_of_N (Z.to_N (48 + n mod 10))) ""
  end.

(** [Format] for layouts made of the numeric verbs [2006 01 02 15 04 05] and
    literal text, for the years 0 to 9999. *)
Fixpoint Format_from (local : Z) (fuel : nat) (layout : string) : string :=
  let '(y, m, d) := civil (local / 86400) in
  let s := local mod 86400 in
  match fuel with
  | O => ""
  | S fuel' =>
      match layout with
      | String "2" (String "0" (String "0" (String "6" rest))) =>
          pad 4 y +:+ Format_from local fuel' rest
      | String "0" (String "1" rest) => pad 2 m +:+ Format_from local fuel' rest
      | String "0" (String "2" rest) => pad 2 d +:+ Format_from local fuel' rest
      | String "1" (String "5" rest) => pad 2 (s / 3600) +:+ Format_from local fuel' rest
      | String "0" (String "4" rest) =>
          pad 2 (s mod 3600 / 60) +:+ Format_from local fuel' rest
      | String "0" (String "5" rest) => pad 2 (s mod 60) +:+ Format_from local fuel' rest
      | String c rest => String c (Format_from local fuel' rest)
      | EmptyString => ""
      end
  end.

Definition Format (t : Time) (layout : string) : string :=
  Format_from (Time_sec t + Time_offset t) (S (String.length layout)) layout.

(** Seconds from year 1 to the Unix epoch. *)
Definition unixToInternal : Z := 62135596800.

(** [time.Unix(s, 0).UTC()]. *)
Definition Unix (s : Z) : Time :=
  {| Time_sec := s + unixToInternal; Time_nsec := 0; Time_offset := 0 |}.

(** [time.Time{}]. *)
Definition zero : Time := {| Time_sec := 0; Time_nsec := 0; Time_offset := 0 |}.

End Calendar.

(** ** The canonical signer *)

(** The digest of the signer, [crypto/md5] of Go's standard library: RFC 1321
    over bytes, on 32-bit words held in [Z]. *)
Module MD5.

Definition w32 (x : Z) : Z := x mod 2 ^ 32.
Definition add32 (a b : Z) : Z := w32 (a + b).
Definition not32 (x : Z) : Z := Z.lxor x 0xffffffff.
Definition rotl32 (x c : Z) : Z := Z.lor (w32 (Z.shiftl x c)) (Z.shiftr x (32 - c)).

Definition K : list Z := [
    0xd76aa478; 0xe8c7b756; 0x242070db; 0xc1bdceee;
    0xf57c0faf; 0x4787c62a; 0xa8304613; 0xfd469501;
    0x698098d8; 0x8b44f7af; 0xffff5bb1; 0x895cd7be;
    0x6b901122; 0xfd987193; 0xa679438e; 0x49b40821;
    0xf61e2562; 0xc040b340; 0x265e5a51; 0xe9b6c7aa;
    0xd62f105d; 0x02441453; 0xd8a1e681; 0xe7d3fbc8;
    0x21e1cde6; 0xc33707d6; 0xf4d50d87; 0x455a14ed;
    0xa9e3e905; 0xfcefa3f8; 0x676f02d9; 0x8d2a4c8a;
    0xfffa3942; 0x8771f681; 0x6d9d6122; 0xfde5380c;
    0xa4beea44; 0x4bdecfa9; 0xf6bb4b60; 0xbebfbc70;
    0x289b7ec6; 0xeaa127fa; 0xd4ef3085; 0x04881d05;
    0xd9d4d039; 0xe6db99e5; 0x1fa27cf8; 0xc4ac5665;
    0xf4292244; 0x432aff97; 0xab9423a7; 0xfc93a039;
    0x655b59c3; 0x8f0ccc92; 0xffeff47d; 0x85845dd1;
    0x6fa87e4f; 0xfe2ce6e0; 0xa3014314; 0x4e0811a1;
    0xf7537e82; 0xbd3af235; 0x2ad7d2bb; 0xeb86d391 ].

Definition R : list Z := [
    7; 12; 17; 22; 7; 12; 17; 22; 7; 12; 17; 22; 7; 12; 17; 22;
    5; 9; 14; 20; 5; 9; 14; 20; 5; 9; 14; 20; 5; 9; 14; 20;
    4; 11; 16; 23; 4; 11; 16; 23; 4; 11; 16; 23; 4; 11; 16; 23;
    6; 10; 15; 21; 6; 10; 15; 21; 6; 10; 15; 21; 6; 10; 15; 21 ].

Definition at_ (l : list Z) (i : Z) : Z := nth (Z.to_nat i) l 0.

(** The message with its padding: a one bit, zeros up to 56 modulo 64, and
    the bit length on 8 bytes, little-endian. *)
Definition le_bytes (n : nat) (x : Z) : list Z :=
  map (fun i => Z.shiftr x (8 * Z.of_nat i) mod 256) (seq 0 n).

Definition padded (msg : list Z) : list Z :=
  let l := Z.of_nat (List.length msg) in
  let zeros := Z.to_nat ((55 - l) mod 64) in
  (msg ++ [0x80] ++ repeat 0 zeros ++ le_bytes 8 ((8 * l) mod 2 ^ 64))%list.

Definition le_word (b : list Z) : Z :=
  at_ b 0 + Z.shiftl (at_ b 1) 8 + Z.shiftl (at_ b 2) 16 + Z.shiftl (at_ b 3) 24.

(** The sixteen words of a 64-byte block. *)
Definition words (block : list Z) : list Z :=
  map (fun i => le_word (drop (4 * i) block)) (seq 0 16).

Definition state : Type := Z * Z * Z * Z.

Definition step (M : list Z) (st : state) (i : Z) : state :=
  let '(a, b, c, d) := st in
  let '(f, g) :=
    if i <? 16 then (Z.lor (Z.land b c) (Z.land (not32 b) d), i)
    else if i <? 32 then (Z.lor (Z.land d b) (Z.land (not32 d) c), (5 * i + 1) mod 16)
    else if i <? 48 then (Z.lxor b (Z.lxor c d), (3 * i + 5) mod 16)
    else (Z.lxor c (Z.lor b (not32 d)), (7 * i) mod 16) in
  let f := add32 (add32 (add32 f a) (at_ K i)) (at_ M g) in
  (d, add32 b (rotl32 f (at_ R i)), b, c).

Definition compress (st : state) (block : list Z) : state :=
  let '(a0, b0, c0, d0) := st in
  let '(a, b, c, d) := fold_left (step (words block)) (map Z.of_nat (seq 0 64)) st in
  (add32 a0 a, add32 b0 b, add32 c0 c, add32 d0 d).

Fixpoint blocks (n : nat) (st : state) (msg : list Z) : state :=
  match n with
  | O => st
  | S n' => blocks n' (compress st (take 64 msg)) (drop 64 msg)
  end.

Definition init : state := (0x67452301, 0xefcdab89, 0x98badcfe, 0x10325476).

(** The 16 bytes of the digest. *)
Definition sum (msg : list Z) : list Z :=
  let p := padded msg in
  let '(a, b, c, d) := blocks (List.length p / 64)%nat init p in
  (le_bytes 4 a ++ le_bytes 4 b ++ le_bytes 4 c ++ le_bytes 4 d)%list.

End MD5.

Module Signer.

Definition bytes_of (s : string) : list Z :=
  map (fun c => Z.of_N (N_of_ascii c)) (list_ascii_of_string s).

Definition HEX (n : Z) : string :=
  String (nth (Z.to_nat n) (list_ascii_of_string "0123456789ABCDEF") "?"%char) "".

(** [hex.EncodeToString] followed by [strings.ToUpper]. *)
Definition upper_hex (digest : list Z) : string :=
  String.concat "" (map (fun b => HEX (b / 16) +:+ HEX (b mod 16)) digest).

(** [k + "=" + v]. *)
Definition pair (kv : string * string) : string := kv.1 +:+ "=" +:+ kv.2.

(** The [query] of [util.SignByMD5] when [range data] yields the pairs in
    the order [ranged]: every pair as [k=v], sorted by [sort.Strings] (byte
    order), then [key=<key>]. *)
Definition query (ranged : list (string * string)) (key : string) : list string :=
  (merge_sort String.le (map pair ranged) ++ ["key=" +:+ key])%list.

(** [strings.Join(query, "&")]: the string that is hashed. *)
Definition signed_string (ranged : list (string * string)) (key : string) : string :=
  String.concat "&" (query ranged key).

(** The body of [util.SignByMD5] of the imported package
    [github.com/medivhzhan/weapp/util], for the order in which [range] yields
    the pairs of the map.  Every pair takes part, whatever its value; the
    digest is MD5; writing to the hash does not fail, so the error is
    nil. *)
Definition sign_ranged (ranged : list (string * string)) (key : string)
    : string * option error :=
  (upper_hex (MD5.sum (bytes_of (signed_string ranged key))), None).

(** [util.SignByMD5]. *)
Definition SignByMD5 (data : gmap string string) (key : string) : string * option error :=
  sign_ranged (map_to_list data) key.

(** *** The signature as the specification words it *)

(** One field of the specified string to sign, [name=value&], and nothing
    for an empty value. *)
Definition entry (name value : string) : string :=
  if String.eqb value "" then "" else name +:+ "=" +:+ value +:+ "&".

Definition field (data : gmap string string) (name : string) : string :=
  match data !! name with
  | Some v => entry name v
  | None => ""
  end.

(** The specified string to sign: the field names sorted in byte order, the
    fields with a non-empty value concatenated, and [key=<secretKey>]
    appended. *)
Definition specified_string (data : gmap string string) (key : string) : string :=
  String.concat "" (map (field data) (merge_sort String.le (map_to_list data).*1))
  +:+ "key=" +:+ key.

(** The specified signature of data that selects no digest of its own: the
    default, MD5, in uppercase hexadecimal.  It is what [SignByMD5] is
    compared with. *)
Definition specified_signature (data : gmap string string) (key : string) : string :=
  upper_hex (MD5.sum (bytes_of (specified_string data key))).

End Signer.

(** ** A gateway to run the package with *)

(** A codec for the flat documents of the protocol,
    [<xml><name>text</name>...</xml>], enough to run the package on concrete
    bodies: no attributes, entities, CDATA or nesting below the fields, and
    the floating-point fields of a notification are left at zero. *)
Module Wire.

Definition of_bytes (b : bytes) : string := string_of_list_byte b.
Definition to_bytes (s : string) : bytes := list_byte_of_string s.

(** [s] cut at the first occurrence of the byte [c]. *)
Fixpoint cut (c : ascii) (s : string) : option (string * string) :=
  match s with
  | EmptyString => None
  | String a s' =>
      if Ascii.eqb a c then Some ("", s')
      else match cut c s' with
           | Some (l, r) => Some (String a l, r)
           | None => None
           end
  end.

(** The fields up to the closing tag of [root]. *)
Fixpoint fields (fuel : nat) (root : string) (s : string) : option (list Element) :=
  match fuel with
  | O => None
  | S fuel' =>
      if String.prefix ("</" +:+ root +:+ ">") s then Some []
      else
        match s with
        | String "<" s1 =>
            match cut ">" s1 with
            | Some (tag, s2) =>
                match cut "<" s2 with
                | Some (text, s3) =>
                    match cut ">" s3 with
                    | Some (close, s4) =>
                        if String.eqb close ("/" +:+ tag)
                        then option_map (cons (mkElement tag text [])) (fields fuel' root s4)
                        else None
                    | None => None
                    end
                | None => None
                end
            | None => None
            end
        | _ => None
        end
  end.

Definition syntax_error : error := lib_error "XML syntax error".

(** [doc.ReadFromBytes]: the document holds the root element. *)
Definition ReadFromBytes (b : bytes) : Element * option error :=
  match of_bytes b with
  | String "<" s1 =>
      match cut ">" s1 with
      | Some (root, s2) =>
          match fields (S (String.length s2)) root s2 with
          | Some fs => (mkElement "" "" [mkElement root "" fs], None)
          | None => (mkElement "" "" [], Some syntax_error)
          end
      | None => (mkElement "" "" [], Some syntax_error)
      end
  | _ => (mkElement "" "" [], Some syntax_error)
  end.

(** The text of the field [name] of the root element, empty when absent. *)
Definition text_of (doc : Element) (name : string) : string :=
  match Child doc with
  | root :: _ => match find_child name (Child root) with
                 | Some e => CharData e
                 | None => ""
                 end
  | [] => ""
  end.

(** An integer field; absent is zero. *)
Definition int_of (doc : Element) (name : string) : Z * option error :=
  match Child doc with
  | root :: _ => match find_child name (Child root) with
                 | Some e => match strconv.ParseInt10_64 (CharData e) with
                             | (n, None) => (n, None)
                             | (_, Some _) => (0, Some (lib_error "strconv.ParseInt: parsing failed"))
                             end
                 | None => (0, None)
                 end
  | [] => (0, None)
  end.

Definition response_of (doc : Element) : response :=
  {| ReturnCode := text_of doc "return_code"; ReturnMsg := text_of doc "return_msg";
     ResultCode := text_of doc "result_code"; ErrCode := text_of doc "err_code";
     ErrCodeDes := text_of doc "err_code_des" |}.

Definition Unmarshal_paidResponse (b : bytes) : paidResponse * option error :=
  let '(doc, err) := ReadFromBytes b in
  ({| paidResponse_response := response_of doc;
      paidResponse_PaidResponse :=
        {| PaidResponse_AppID := text_of doc "appid";
           PaidResponse_MchID := text_of doc "mch_id";
           PaidResponse_PrePayID := text_of doc "prepay_id";
           PaidResponse_Sign := text_of doc "sign";
           PaidResponse_NonceStr := text_of doc "nonce_str" |} |}, err).

Definition Unmarshal_paidNotify (b : bytes) : paidNotify * option error :=
  let '(doc, err) := ReadFromBytes b in
  let '(total, err1) := int_of doc "total_fee" in
  let '(count, err2) := int_of doc "coupon_count" in
  ({| paidNotify_response := response_of doc;
      paidNotify_PaidNotify :=
        {| PaidNotify_AppID := text_of doc "appid";
           PaidNotify_MchID := text_of doc "mch_id";
           PaidNotify_TotalFee := total;
           PaidNotify_NonceStr := text_of doc "nonce_str";
           PaidNotify_Sign := text_of doc "sign";
           PaidNotify_SignType := text_of doc "sign_type";
           PaidNotify_OpenID := text_of doc "openid";
           PaidNotify_TradeType := text_of doc "trade_type";
           PaidNotify_Bank := text_of doc "bank_type";
           PaidNotify_Settlement := PrimFloat.zero;
           PaidNotify_FeeType := text_of doc "fee_type";
           PaidNotify_CashFee := PrimFloat.zero;
           PaidNotify_CashFeeType := text_of doc "cash_fee_type";
           PaidNotify_CouponFee := PrimFloat.zero;
           PaidNotify_CouponCount := count;
           PaidNotify_TransactionID := text_of doc "transaction_id";
           PaidNotify_Attach := text_of doc "attach";
           PaidNotify_IsSubscribe := text_of doc "is_subscribe";
           PaidNotify_OutTradeNo := text_of doc "out_trade_no";
           PaidNotify_Timeend := text_of doc "time_end";
           PaidNotify_Coupons := [] |} |},
   match err, err1, err2 with
   | Some e, _, _ => Some e
   | None, Some e, _ => Some e
   | None, None, e => e
   end).

(** [xml.Marshal] of a [replay]: the element is named after the type. *)
Definition Marshal_replay (r : replay) : bytes * option error :=
  (to_bytes ("<replay><return_code>" +:+ replay_Code r +:+ "</return_code><return_msg>"
             +:+ replay_Msg r +:+ "</return_msg></replay>"), None).

End Wire.

(** [(ip IP) String] for the four bytes of an IPv4 address. *)
Definition dotted_quad (ip : net_IP) : string :=
  match ip with
  | [] => "<nil>"
  | _ => String.concat "." (map (fun b => strconv.Itoa (Z.of_N (Byte.to_N b))) ip)
  end.

(** The package wired to the calendar and the codec above, to the signer of
    [Signer] (or any other), with the answers of the IP resolver, of the
    gateway and of the system clock given. *)
Definition gateway (fetch : net_IP * option error)
    (signer : gmap string string -> string -> string * option error)
    (posted : bytes * option error) (now : Z) : Env :=
  {| IP_String := dotted_quad;
     Time_Format := Calendar.Format;
     util_RandomString := fun n => String.substring 0 (Z.to_nat n) "5K8264ILTKCH16CQ2502SI8ZNMTM67VS5K8264ILTKCH16CQ2502SI8ZNMTM67VS";
     util_FetchIP := fetch;
     util_SignByMD5 := signer;
     util_PostXML := fun _ _ => posted;
     xml_Unmarshal_paidResponse := Wire.Unmarshal_paidResponse;
     xml_Unmarshal_paidNotify := Wire.Unmarshal_paidNotify;
     xml_Marshal_replay := Wire.Marshal_replay;
     etree_ReadFromBytes := Wire.ReadFromBytes;
     time_Now_Unix := now |}.

(** ** Vocabulary of the statements *)

(** [err.Error()]. *)
Definition error_message (e : error) : string :=
  match e with errors_New msg => msg | lib_error msg => msg end.

(** [sub] occurs in [s]. *)
Fixpoint contains (sub s : string) : bool :=
  String.prefix sub s ||
  match s with
  | String _ s' => contains sub s'
  | EmptyString => false
  end.

(** The number a sequence of decimal digits stands for, after [acc]. *)
Fixpoint digits_value (d : Decimal.uint) (acc : Z) : Z :=
  match d with
  | Decimal.Nil => acc
  | Decimal.D0 l => digits_value l (10 * acc)
  | Decimal.D1 l => digits_value l (10 * acc + 1)
  | Decimal.D2 l => digits_value l (10 * acc + 2)
  | Decimal.D3 l => digits_value l (10 * acc + 3)
  | Decimal.D4 l => digits_value l (10 * acc + 4)
  | Decimal.D5 l => digits_value l (10 * acc + 5)
  | Decimal.D6 l => digits_value l (10 * acc + 6)
  | Decimal.D7 l => digits_value l (10 * acc + 7)
  | Decimal.D8 l => digits_value l (10 * acc + 8)
  | Decimal.D9 l => digits_value l (10 * acc + 9)
  end.

(** The error text carries the string [s]. *)
Definition carries (e : error) (s : string) : Prop := contains s (error_message e) = true.

(** The field sets handed to the signer during a run. *)
Definition signed_fields (t : list event) : list (gmap string string) :=
  omap (fun e => match e with SignByMD5_called d _ => Some d | _ => None end) t.

(** Whether the IP resolver was consulted. *)
Definition resolver_consulted (t : list event) : bool :=
  existsb (fun e => match e with FetchIP_called => true | _ => false end) t.

(** The notifications handed to the caller's decision function. *)
Definition decided (t : list event) : list PaidNotify :=
  omap (fun e => match e with callback_called n => Some n | _ => None end) t.

(** The bodies written to the response. *)
Definition written (t : list event) : list bytes :=
  omap (fun e => match e with Write_called b => Some b | _ => None end) t.

(** *** Order assembly in closed form *)

Section AssemblyVocabulary.
Context `{Env}.

Definition insert_when (b : bool) (k v : string) (m : gmap string string)
    : gmap string string :=
  if b then <[k:=v]> m else m.

(** The field set [prepare] hands to the signer, for the nonce and the IP
    it ends up with. *)
Definition assembled_fields (o : Order) (nonce ip : string) : gmap string string :=
  insert_when (Order_NoCredit o) "limit_pay" "no_credit"
   (insert_when (negb (String.eqb (Order_Tag o) "")) "goods_tag" (Order_Tag o)
    (insert_when (negb (String.eqb (Order_Detail o) "")) "detail" (Order_Detail o)
     (insert_when (negb (String.eqb (Order_Attach o) "")) "attach" (Order_Attach o)
      (insert_when (negb (Time_IsZero (Order_ExpiredAt o))) "time_expire"
         (Time_Format (Order_ExpiredAt o) paymentTimeFormat)
       (insert_when (negb (Time_IsZero (Order_StartedAt o))) "time_start"
          (Time_Format (Order_StartedAt o) paymentTimeFormat)
        (<["spbill_create_ip" := ip]>
           (list_to_map [
              ("appid", Order_AppID o); ("body", Order_Body o);
              ("mch_id", Order_MchID o); ("nonce_str", nonce);
              ("notify_url", Order_NotifyURL o); ("openid", Order_OpenID o);
              ("out_trade_no", Order_OutTradeNo o);
              ("total_fee", strconv.Itoa (Order_TotalFee o));
              ("trade_type", "JSAPI"); ("sign_type", "MD5") ]))))))).

(** The order [prepare] returns, before its signature is set. *)
Definition assembled_order (o : Order) (nonce ip : string) : order :=
  {| order_Order := Order_set_IP o ip; order_Sign := ""; order_NonceStr := nonce;
     order_TradeType := "JSAPI"; order_SignType := "MD5";
     order_NoCredit := if Order_NoCredit o then "no_credit" else "";
     order_StartedAt := if Time_IsZero (Order_StartedAt o) then ""
                        else Time_Format (Order_StartedAt o) paymentTimeFormat;
     order_ExpiredAt := if Time_IsZero (Order_ExpiredAt o) then ""
                        else Time_Format (Order_ExpiredAt o) paymentTimeFormat |}.

(** The order as it stands when the IP resolver is consulted. *)
Definition unresolved_order (o : Order) (nonce : string) : order :=
  {| order_Order := o; order_Sign := ""; order_NonceStr := nonce;
     order_TradeType := "JSAPI"; order_SignType := "MD5";
     order_NoCredit := ""; order_StartedAt := ""; order_ExpiredAt := "" |}.

(** The end of [prepare]: the call to the signer, after the trace [t]. *)
Definition signing (o : Order) (key nonce ip : string) (t : list event)
    : outcome (order * option error) * list event :=
  let data := assembled_fields o nonce ip in
  let od := assembled_order o nonce ip in
  (Returned match util_SignByMD5 data key with
            | (sign, Some e) => (od, Some e)
            | (sign, None) => (order_set_Sign od sign, None)
            end,
   (t ++ [SignByMD5_called data key])%list).

(** The IP that ends up in the order: the caller's, or the resolver's. *)
Definition final_IP (o : Order) : string :=
  if String.eqb (Order_IP o) "" then IP_String util_FetchIP.1 else Order_IP o.

End AssemblyVocabulary.

(** *** Notification handling in closed form *)

Definition nil_dereference : string := "invalid memory address or nil pointer dereference".

(** The coupon with index [i] among the children of [root], when both of its
    elements are there. *)
Definition coupon_at (root : Element) (i : Z) : option CouponResponseModel :=
  match find_child (Sprintf "coupon_id_%d" [i]) (Child root),
        find_child (Sprintf "coupon_fee_%d" [i]) (Child root) with
  | Some a, Some b =>
      Some {| CouponId := CharData a;
              CouponFee := (strconv.ParseInt10_64 (CharData b)).1 |}
  | _, _ => None
  end.

Definition PaidNotify_set_Coupons (n : PaidNotify) (cs : list CouponResponseModel)
    : PaidNotify :=
  {| PaidNotify_AppID := PaidNotify_AppID n; PaidNotify_MchID := PaidNotify_MchID n;
     PaidNotify_TotalFee := PaidNotify_TotalFee n;
     PaidNotify_NonceStr := PaidNotify_NonceStr n;
     PaidNotify_Sign := PaidNotify_Sign n; PaidNotify_SignType := PaidNotify_SignType n;
     PaidNotify_OpenID := PaidNotify_OpenID n;
     PaidNotify_TradeType := PaidNotify_TradeType n;
     PaidNotify_Bank := PaidNotify_Bank n;
     PaidNotify_Settlement := PaidNotify_Settlement n;
     PaidNotify_FeeType := PaidNotify_FeeType n; PaidNotify_CashFee := PaidNotify_CashFee n;
     PaidNotify_CashFeeType := PaidNotify_CashFeeType n;
     PaidNotify_CouponFee := PaidNotify_CouponFee n;
     PaidNotify_CouponCount := PaidNotify_CouponCount n;
     PaidNotify_TransactionID := PaidNotify_TransactionID n;
     PaidNotify_Attach := PaidNotify_Attach n;
     PaidNotify_IsSubscribe := PaidNotify_IsSubscribe n;
     PaidNotify_OutTradeNo := PaidNotify_OutTradeNo n;
     PaidNotify_Timeend := PaidNotify_Timeend n;
     PaidNotify_Coupons := cs |}.

Definition PaidNotify_set_Sign (n : PaidNotify) (s : string) : PaidNotify :=
  {| PaidNotify_AppID := PaidNotify_AppID n; PaidNotify_MchID := PaidNotify_MchID n;
     PaidNotify_TotalFee := PaidNotify_TotalFee n;
     PaidNotify_NonceStr := PaidNotify_NonceStr n;
     PaidNotify_Sign := s; PaidNotify_SignType := PaidNotify_SignType n;
     PaidNotify_OpenID := PaidNotify_OpenID n;
     PaidNotify_TradeType := PaidNotify_TradeType n;
     PaidNotify_Bank := PaidNotify_Bank n;
     PaidNotify_Settlement := PaidNotify_Settlement n;
     PaidNotify_FeeType := PaidNotify_FeeType n; PaidNotify_CashFee := PaidNotify_CashFee n;
     PaidNotify_CashFeeType := PaidNotify_CashFeeType n;
     PaidNotify_CouponFee := PaidNotify_CouponFee n;
     PaidNotify_CouponCount := PaidNotify_CouponCount n;
     PaidNotify_TransactionID := PaidNotify_TransactionID n;
     PaidNotify_Attach := PaidNotify_Attach n;
     PaidNotify_IsSubscribe := PaidNotify_IsSubscribe n;
     PaidNotify_OutTradeNo := PaidNotify_OutTradeNo n;
     PaidNotify_Timeend := PaidNotify_Timeend n;
     PaidNotify_Coupons := PaidNotify_Coupons n |}.

(** The notification with the coupons [ms] appended. *)
Definition with_coupons (ntf : paidNotify) (ms : list CouponResponseModel) : paidNotify :=
  {| paidNotify_response := paidNotify_response ntf;
     paidNotify_PaidNotify :=
       PaidNotify_set_Coupons (paidNotify_PaidNotify ntf)
         (PaidNotify_Coupons (paidNotify_PaidNotify ntf) ++ ms) |}.

(** The tree with the text of every [sign] element blanked. *)
Fixpoint erase_sign (e : Element) : Element :=
  match e with
  | mkElement tag text cs =>
      mkElement tag (if String.eqb tag "sign" then "" else text) (map erase_sign cs)
  end.

Section NotifyVocabulary.
Context `{Env}.

(** The coupon step of [HandlePaidNotify]: an error of the tree parser, the
    notification with its coupons, or a panic. *)
Definition extract_coupons (body : bytes) (ntf : paidNotify)
    : outcome (error + paidNotify) :=
  let count := PaidNotify_CouponCount (paidNotify_PaidNotify ntf) in
  if 0 <? count then
    match etree_ReadFromBytes body with
    | (doc, Some e) => Returned (inl e)
    | (doc, None) =>
        match find_child "xml" (Child doc) with
        | None => Panicked nil_dereference
        | Some root =>
            match mapM (coupon_at root) (seqZ 0 count) with
            | Some ms => Returned (inr (with_coupons ntf ms))
            | None => Panicked nil_dereference
            end
        end
    end
  else Returned (inr ntf).

(** The end of [HandlePaidNotify]: the decision of the caller and the
    acknowledgement. *)
Definition acknowledge (res : ResponseWriter) (fuck : PaidNotify -> bool * string)
    (n : PaidNotify) : outcome (option error) * list event :=
  let '(b, err) := xml_Marshal_replay (newReplay (fuck n).1 (fuck n).2) in
  match err with
  | Some e => (Returned (Some e), [callback_called n])
  | None => (Returned (Write_err res b),
             [callback_called n; WriteHeader_called 200; Write_called b])
  end.

(** Two bodies that differ only in the value of the [sign] field, as both
    decoders see them. *)
Definition differ_only_in_sign (b1 b2 : bytes) : Prop :=
  (xml_Unmarshal_paidNotify b1).2 = (xml_Unmarshal_paidNotify b2).2
  ∧ paidNotify_response (xml_Unmarshal_paidNotify b1).1
    = paidNotify_response (xml_Unmarshal_paidNotify b2).1
  ∧ (∃ s, paidNotify_PaidNotify (xml_Unmarshal_paidNotify b2).1
          = PaidNotify_set_Sign (paidNotify_PaidNotify (xml_Unmarshal_paidNotify b1).1) s)
  ∧ (etree_ReadFromBytes b1).2 = (etree_ReadFromBytes b2).2
  ∧ erase_sign (etree_ReadFromBytes b1).1 = erase_sign (etree_ReadFromBytes b2).1.

End NotifyVocabulary.

(** ** Sample inputs *)

Module Sample.

Definition intent : Order :=
  {| Order_AppID := "wx1"; Order_MchID := "10000"; Order_TotalFee := 100;
     Order_NotifyURL := "https://x/cb"; Order_OpenID := "oUser1"; Order_Body := "Item";
     Order_OutTradeNo := "ON001"; Order_IP := ""; Order_NoCredit := true;
     Order_StartedAt := Calendar.zero; Order_ExpiredAt := Calendar.Unix 1261732210;
     Order_Tag := ""; Order_Detail := "two items"; Order_Attach := "" |}.

(** The gateway refuses the order at the business tier. *)
Definition reply_paid : bytes := Wire.to_bytes
  ("<xml><return_code>SUCCESS</return_code><return_msg>OK</return_msg>"
   +:+ "<result_code>FAIL</result_code><err_code>ORDERPAID</err_code>"
   +:+ "<err_code_des>order paid</err_code_des></xml>").

Definition shop : Env :=
  gateway ([Byte.x0a; Byte.x00; Byte.x00; Byte.x01], None) Signer.SignByMD5
    (reply_paid, None) 1700000000.

(** The IP resolver fails. *)
Definition offline : Env :=
  gateway ([], Some (lib_error "no route to host")) Signer.SignByMD5
    (reply_paid, None) 1700000000.

Definition refused : response :=
  {| ReturnCode := "SUCCESS"; ReturnMsg := "OK"; ResultCode := "FAIL";
     ErrCode := "ORDERPAID"; ErrCodeDes := "order paid" |}.

Definition reply : paidResponse :=
  {| paidResponse_response := refused; paidResponse_PaidResponse := zero_PaidResponse |}.

(** What [prepare] makes of [intent] in [shop]. *)
Definition nonce : string := "5K8264ILTKCH16CQ2502SI8ZNMTM67VS".
Definition fields : gmap string string :=
  assembled_fields (H := shop) intent nonce "10.0.0.1".
Definition request : order :=
  order_set_Sign (assembled_order (H := shop) intent nonce "10.0.0.1")
    "C3C32EE7B6EB43AC9E03B63BADD0B232".
Definition calls : list event :=
  [RandomString_called 32; FetchIP_called; SignByMD5_called fields "k"].

(** A paid notification with two coupons. *)
Definition notify_coupons (sign : string) : bytes := Wire.to_bytes
  ("<xml><return_code>SUCCESS</return_code><result_code>SUCCESS</result_code>"
   +:+ "<sign>" +:+ sign +:+ "</sign><coupon_count>2</coupon_count>"
   +:+ "<coupon_id_0>A</coupon_id_0><coupon_fee_0>100</coupon_fee_0>"
   +:+ "<coupon_id_1>B</coupon_id_1><coupon_fee_1>50</coupon_fee_1></xml>").

(** A notification that declares one coupon and holds none. *)
Definition notify_missing (return_code : string) : bytes := Wire.to_bytes
  ("<xml><return_code>" +:+ return_code +:+ "</return_code>"
   +:+ "<result_code>SUCCESS</result_code><coupon_count>1</coupon_count></xml>").

(** A notification whose coupon amount overflows 64 bits. *)
Definition notify_overflow : bytes := Wire.to_bytes
  ("<xml><return_code>SUCCESS</return_code><result_code>SUCCESS</result_code>"
   +:+ "<coupon_count>1</coupon_count><coupon_id_0>A</coupon_id_0>"
   +:+ "<coupon_fee_0>9223372036854775808</coupon_fee_0></xml>").

(** A notification that failed at the transport tier. *)
Definition notify_failed : bytes := Wire.to_bytes
  "<xml><return_code>FAIL</return_code><return_msg>busy</return_msg></xml>".

Definition writer : ResponseWriter := {| Write_err := fun _ => None |}.

Definition post (body : bytes) : Request := {| Body_ReadAll := (body, None) |}.

(** A caller that accepts everything. *)
Definition accept (n : PaidNotify) : bool * string := (true, "").

(** A caller that checks the signature field itself. *)
Definition verify (n : PaidNotify) : bool * string :=
  if String.eqb (PaidNotify_Sign n) "C380BEC2BFD727A4B6845133519F3AD6"
  then (true, "") else (false, "bad sign").

End Sample.

(** ** The order on the wire *)

(** An element whose struct tag says [omitempty]: left out when its value is
    empty. *)
Definition omit_empty (name value : string) (rest : list (string * string))
    : list (string * string) :=
  if String.eqb value "" then rest else (name, value) :: rest.

(** The elements [xml.Marshal] writes inside [<xml>] for an [order], read off
    the struct tags of [Order] and [order]: the fields of the embedded
    [Order] first, then those of [order], in the order of declaration; the
    fields tagged ["-"] never, those tagged [omitempty] unless empty, the
    integer in decimal. *)
Definition order_elements (od : order) : list (string * string) :=
  let o := order_Order od in
  ("appid", Order_AppID o) ::
  ("mch_id", Order_MchID o) ::
  ("total_fee", strconv.Itoa (Order_TotalFee o)) ::
  ("notify_url", Order_NotifyURL o) ::
  ("openid", Order_OpenID o) ::
  ("body", Order_Body o) ::
  ("out_trade_no", Order_OutTradeNo o) ::
  omit_empty "spbill_create_ip" (Order_IP o)
  (omit_empty "goods_tag" (Order_Tag o)
  (omit_empty "detail" (Order_Detail o)
  (omit_empty "attach" (Order_Attach o)
  (("sign", order_Sign od) ::
   ("nonce_str", order_NonceStr od) ::
   ("trade_type", order_TradeType od) ::
   omit_empty "sign_type" (order_SignType od)
   (omit_empty "limit_pay" (order_NoCredit od)
   (omit_empty "time_start" (order_StartedAt od)
   (omit_empty "time_expire" (order_ExpiredAt od) []))))))).

(** ** More vocabulary *)

(** The keys [prepare] always signs. *)
Definition mandatory_keys : gset string :=
  {[ "appid"; "body"; "mch_id"; "nonce_str"; "notify_url"; "openid"; "out_trade_no";
     "total_fee"; "trade_type"; "sign_type"; "spbill_create_ip" ]}.

Definition key_when (b : bool) (k : string) : gset string := if b then {[ k ]} else ∅.

(** The keys [prepare] signs for the optional values the intent sets. *)
Definition optional_keys (o : Order) : gset string :=
  key_when (negb (Time_IsZero (Order_StartedAt o))) "time_start"
  ∪ key_when (negb (Time_IsZero (Order_ExpiredAt o))) "time_expire"
  ∪ key_when (negb (String.eqb (Order_Attach o) "")) "attach"
  ∪ key_when (negb (String.eqb (Order_Detail o) "")) "detail"
  ∪ key_when (negb (String.eqb (Order_Tag o) "")) "goods_tag"
  ∪ key_when (Order_NoCredit o) "limit_pay".

(** The requests posted to the gateway during a run. *)
Definition posted (t : list event) : list (string * order) :=
  omap (fun e => match e with PostXML_called url od => Some (url, od) | _ => None end) t.

(** ** More sample inputs *)

Module Scenario.

Definition address : net_IP * option error :=
  ([Byte.x0a; Byte.x00; Byte.x00; Byte.x01], None).

(** A signer that fails. *)
Definition broken_signer (data : gmap string string) (key : string)
    : string * option error :=
  ("", Some (lib_error "md5: write failed")).

Definition unsigned : Env := gateway address broken_signer (Sample.reply_paid, None) 1700000000.

(** The gateway cannot be reached. *)
Definition unreachable : Env :=
  gateway address Signer.SignByMD5 ([], Some (lib_error "connection refused")) 1700000000.

(** The gateway answers something that is not XML. *)
Definition garbled : Env :=
  gateway address Signer.SignByMD5 (Wire.to_bytes "Bad Gateway", None) 1700000000.

(** The sample shop with a tree parser that rejects every body. *)
Definition treeless : Env :=
  {| IP_String := dotted_quad;
     Time_Format := Calendar.Format;
     util_RandomString := util_RandomString (Env := Sample.shop);
     util_FetchIP := address;
     util_SignByMD5 := Signer.SignByMD5;
     util_PostXML := fun _ _ => (Sample.reply_paid, None);
     xml_Unmarshal_paidResponse := Wire.Unmarshal_paidResponse;
     xml_Unmarshal_paidNotify := Wire.Unmarshal_paidNotify;
     xml_Marshal_replay := Wire.Marshal_replay;
     etree_ReadFromBytes := fun _ => (mkElement "" "" [], Some Wire.syntax_error);
     time_Now_Unix := 1700000000 |}.

(** The sample shop with an encoder that fails. *)
Definition mute : Env :=
  {| IP_String := dotted_quad;
     Time_Format := Calendar.Format;
     util_RandomString := util_RandomString (Env := Sample.shop);
     util_FetchIP := address;
     util_SignByMD5 := Signer.SignByMD5;
     util_PostXML := fun _ _ => (Sample.reply_paid, None);
     xml_Unmarshal_paidResponse := Wire.Unmarshal_paidResponse;
     xml_Unmarshal_paidNotify := Wire.Unmarshal_paidNotify;
     xml_Marshal_replay := fun _ => ([], Some (lib_error "xml: unsupported type"));
     etree_ReadFromBytes := Wire.ReadFromBytes;
     time_Now_Unix := 1700000000 |}.

(** A paid notification without coupons. *)
Definition notify_plain : bytes := Wire.to_bytes
  ("<xml><return_code>SUCCESS</return_code><result_code>SUCCESS</result_code>"
   +:+ "<out_trade_no>ON001</out_trade_no><total_fee>100</total_fee></xml>").

(** A notification with one coupon whose root element is not [xml]. *)
Definition notify_foreign_root : bytes := Wire.to_bytes
  ("<notify><return_code>SUCCESS</return_code><result_code>SUCCESS</result_code>"
   +:+ "<coupon_count>1</coupon_count><coupon_id_0>A</coupon_id_0>"
   +:+ "<coupon_fee_0>100</coupon_fee_0></notify>").

(** A notification that declares a negative number of coupons. *)
Definition notify_negative : bytes := Wire.to_bytes
  ("<xml><return_code>SUCCESS</return_code><result_code>FAIL</result_code>"
   +:+ "<err_code_des>refused</err_code_des><coupon_count>-1</coupon_count></xml>").

(** A request whose body cannot be read. *)
Definition broken_request : Request :=
  {| Body_ReadAll := ([], Some (lib_error "unexpected EOF")) |}.

(** A caller that refuses everything as a duplicate. *)
Definition refuse (n : PaidNotify) : bool * string := (false, "duplicate").

(** Three fields, one of them empty. *)
Definition three_fields : gmap string string :=
  list_to_map [("appid", "wx1"); ("attach", ""); ("body", "Item")].

(** Two fields, the name of one a prefix of the name of the other. *)
Definition prefixed_names : gmap string string :=
  list_to_map [("a", "1"); ("a0", "2")].

(** The sample order without a description. *)
Definition untitled : Order :=
  {| Order_AppID := "wx1"; Order_MchID := "10000"; Order_TotalFee := 100;
     Order_NotifyURL := "https://x/cb"; Order_OpenID := "oUser1"; Order_Body := "";
     Order_OutTradeNo := "ON001"; Order_IP := ""; Order_NoCredit := true;
     Order_StartedAt := Calendar.zero; Order_ExpiredAt := Calendar.Unix 1261732210;
     Order_Tag := ""; Order_Detail := "two items"; Order_Attach := "" |}.

(** What [prepare] signs for it in the sample shop. *)
Definition untitled_fields : gmap string string :=
  assembled_fields (H := Sample.shop) untitled Sample.nonce "10.0.0.1".

End Scenario.

(** * Properties *)

(** ** Order assembly *)

Section Assembly.
Context `{Env}.

Lemma Order_set_IP_same (o : Order) : Order_set_IP o (Order_IP o) = o.
Proof. by destruct o. Qed.

(** [prepare] in closed form: the nonce is drawn, the IP resolver is asked
    when the intent has no IP, and unless it fails the signer is called on
    the assembled fields. *)
Lemma prepare_run (o : Order) (key : string) :
  run (prepare o key) =
    let nonce := util_RandomString 32 in
    if String.eqb (Order_IP o) ""
    then match util_FetchIP with
         | (ip, Some e) =>
             (Returned (unresolved_order o nonce, Some e),
              [RandomString_called 32; FetchIP_called])
         | (ip, None) =>
             signing o key nonce (IP_String ip) [RandomString_called 32; FetchIP_called]
         end
    else signing o key nonce (Order_IP o) [RandomString_called 32].
Proof.
  cbv beta iota zeta delta [run prepare mbind M_bind bind call ret signing
    assembled_fields assembled_order unresolved_order insert_when].
  destruct (String.eqb (Order_IP o) ""); [destruct util_FetchIP as [ip [e|]]; [reflexivity|] |];
    [|rewrite Order_set_IP_same];
    cbn [order_set_IP order_Order Order_IP Order_set_IP order_NonceStr order_TradeType
         order_SignType Order_AppID Order_Body Order_MchID Order_NotifyURL Order_OpenID
         Order_OutTradeNo Order_TotalFee Order_Attach Order_Detail Order_Tag];
    match goal with |- context [<[?k:=?v]> (list_to_map ?l)] =>
      generalize (<[k:=v]> (list_to_map l) : gmap string string); intros base end;
    generalize (Time_Format (Order_StartedAt o) paymentTimeFormat)
               (Time_Format (Order_ExpiredAt o) paymentTimeFormat); intros ts te;
    generalize (Time_IsZero (Order_StartedAt o)) (Time_IsZero (Order_ExpiredAt o))
      (String.eqb (Order_Attach o) "") (String.eqb (Order_Detail o) "")
      (String.eqb (Order_Tag o) "") (Order_NoCredit o);
    intros [] [] [] [] [] [];
    cbn [negb app order_StartedAt order_ExpiredAt order_NoCredit order_set_StartedAt
         order_set_ExpiredAt order_set_NoCredit order_Order];
    destruct (util_SignByMD5 _ key) as [sign [e|]]; reflexivity.
Qed.

Lemma lookup_insert_when (b : bool) (k v k' : string) (m : gmap string string) :
  insert_when b k v m !! k' =
    if b && bool_decide (k = k') then Some v else m !! k'.
Proof.
  unfold insert_when. destruct b; simpl; [|done].
  case_bool_decide as Hk; [subst; apply lookup_insert_eq | by apply lookup_insert_ne].
Qed.

(** The signer is called once, on the assembled fields, unless the IP
    resolver was needed and failed. *)
Lemma prepare_signed_fields (o : Order) (key : string) :
  signed_fields (run (prepare o key)).2 =
    if String.eqb (Order_IP o) "" && bool_decide (is_Some util_FetchIP.2) then []
    else [assembled_fields o (util_RandomString 32) (final_IP o)].
Proof.
  rewrite prepare_run. unfold final_IP. cbv zeta.
  destruct (String.eqb (Order_IP o) ""); [|done].
  by destruct util_FetchIP as [a [e|]].
Qed.

Lemma prepare_signed_fields_elem (o : Order) (key : string) (data : gmap string string) :
  data ∈ signed_fields (run (prepare o key)).2 →
  data = assembled_fields o (util_RandomString 32) (final_IP o).
Proof.
  rewrite prepare_signed_fields.
  destruct (_ && _); [by intros ?%elem_of_nil | by intros ?%list_elem_of_singleton].
Qed.

Ltac lookup_assembled :=
  unfold assembled_fields; rewrite !lookup_insert_when;
  repeat match goal with |- context [bool_decide ?P] =>
    first [rewrite (bool_decide_eq_true_2 P) by reflexivity
          |rewrite (bool_decide_eq_false_2 P) by discriminate] end;
  rewrite ?andb_true_r, ?andb_false_r; cbn [negb].

(** C3.  In the field set that [prepare] signs, [time_start] and
    [time_expire] are present exactly when the corresponding time is not
    zero, holding it in the layout [20060102150405]; [attach], [detail] and
    [goods_tag] are present exactly when the corresponding string is not
    empty; [limit_pay] is present, holding [no_credit], exactly when the
    credit card restriction is set. *)
Theorem prepare_optional_fields (o : Order) (key : string) (data : gmap string string) :
  data ∈ signed_fields (run (prepare o key)).2 →
  data !! "time_start" =
    (if Time_IsZero (Order_StartedAt o) then None
     else Some (Time_Format (Order_StartedAt o) "20060102150405"))
  ∧ data !! "time_expire" =
    (if Time_IsZero (Order_ExpiredAt o) then None
     else Some (Time_Format (Order_ExpiredAt o) "20060102150405"))
  ∧ data !! "attach" = (if String.eqb (Order_Attach o) "" then None else Some (Order_Attach o))
  ∧ data !! "detail" = (if String.eqb (Order_Detail o) "" then None else Some (Order_Detail o))
  ∧ data !! "goods_tag" = (if String.eqb (Order_Tag o) "" then None else Some (Order_Tag o))
  ∧ data !! "limit_pay" = (if Order_NoCredit o then Some "no_credit" else None).
Proof.
  intros ->%prepare_signed_fields_elem.
  repeat split; lookup_assembled.
  - by destruct (Time_IsZero (Order_StartedAt o)).
  - by destruct (Time_IsZero (Order_ExpiredAt o)).
  - by destruct (String.eqb (Order_Attach o) "").
  - by destruct (String.eqb (Order_Detail o) "").
  - by destruct (String.eqb (Order_Tag o) "").
  - by destruct (Order_NoCredit o).
Qed.

(** C8.  The IP resolver is consulted exactly when the intent has no IP.
    When it fails, [prepare] returns its error with an order whose [Sign] is
    empty, and the signer has not been called.  Otherwise the signer is
    called once, and the field set it is given holds the resolved or
    supplied IP as [spbill_create_ip]. *)
Theorem prepare_ip_resolution (o : Order) (key : string) :
  (resolver_consulted (run (prepare o key)).2 = true ↔ Order_IP o = "")
  ∧ (∀ ip e, Order_IP o = "" → util_FetchIP = (ip, Some e) →
       ∃ od, (run (prepare o key)).1 = Returned (od, Some e)
             ∧ order_Sign od = ""
             ∧ signed_fields (run (prepare o key)).2 = [])
  ∧ (Order_IP o ≠ "" ∨ util_FetchIP.2 = None →
       ∃ data, signed_fields (run (prepare o key)).2 = [data]
               ∧ data !! "spbill_create_ip" =
                   Some (if String.eqb (Order_IP o) "" then IP_String util_FetchIP.1
                         else Order_IP o)).
Proof.
  split; [|split].
  - rewrite prepare_run. cbv zeta.
    destruct (String.eqb_spec (Order_IP o) "") as [Hip|Hip].
    + by destruct util_FetchIP as [a [e|]].
    + done.
  - intros ip e Hip Hf. rewrite prepare_signed_fields, prepare_run, Hip, Hf. cbv zeta.
    exists (unresolved_order o (util_RandomString 32)). done.
  - intros Hok. exists (assembled_fields o (util_RandomString 32) (final_IP o)). split.
    + rewrite prepare_signed_fields.
      destruct (String.eqb_spec (Order_IP o) "") as [Hip|Hip]; [|done].
      destruct Hok as [?|Hok]; [done|]. rewrite Hok. done.
    + lookup_assembled. apply lookup_insert_eq.
Qed.

End Assembly.

(** The sample order in the sample shop: its signed fields. *)
Lemma prepare_optional_fields_witness :
  Sample.fields !! "time_start" = None
  ∧ Sample.fields !! "time_expire" = Some "20091225091010"
  ∧ Sample.fields !! "attach" = None
  ∧ Sample.fields !! "detail" = Some "two items"
  ∧ Sample.fields !! "goods_tag" = None
  ∧ Sample.fields !! "limit_pay" = Some "no_credit".
Proof.
  apply (prepare_optional_fields (H := Sample.shop) Sample.intent "k" Sample.fields).
  rewrite prepare_signed_fields. apply list_elem_of_singleton. reflexivity.
Defined.

(** The sample order when the IP resolver is down: the error comes back with
    an unsigned order. *)
Lemma prepare_ip_resolution_witness :
  ∃ od, (run (prepare (H := Sample.offline) Sample.intent "k")).1
          = Returned (od, Some (lib_error "no route to host"))
        ∧ order_Sign od = ""
        ∧ signed_fields (run (prepare (H := Sample.offline) Sample.intent "k")).2 = [].
Proof.
  destruct (prepare_ip_resolution (H := Sample.offline) Sample.intent "k") as (_ & Hfail & _).
  apply (Hfail []); reflexivity.
Defined.

(** ** The two-tier status check and the submission *)

Section StatusCheck.
Context `{Env}.

Lemma eqb_SUCCESS_false (s : string) : s ≠ "SUCCESS" → String.eqb s "SUCCESS" = false.
Proof. intros Hs. by apply String.eqb_neq. Qed.

Lemma Check_transport (res : response) :
  ReturnCode res ≠ "SUCCESS" →
  Check res = Some (errors_New ("交易失败: " +:+ ReturnMsg res)).
Proof. intros Hs. unfold Check. by rewrite eqb_SUCCESS_false. Qed.

Lemma Check_business (res : response) :
  ReturnCode res = "SUCCESS" → ResultCode res ≠ "SUCCESS" →
  Check res = Some (errors_New ("发生错误: " +:+ ErrCodeDes res)).
Proof.
  intros Hr Hs. unfold Check. rewrite Hr. simpl.
  by rewrite eqb_SUCCESS_false.
Qed.

Lemma Check_success (res : response) :
  ReturnCode res = "SUCCESS" → ResultCode res = "SUCCESS" → Check res = None.
Proof. intros Hr Hs. unfold Check. by rewrite Hr, Hs. Qed.

(** A failed check is decided by the two status codes alone. *)
Lemma Check_fails_iff (res : response) :
  is_Some (Check res) ↔ ReturnCode res ≠ "SUCCESS" ∨ ResultCode res ≠ "SUCCESS".
Proof.
  destruct (decide (ReturnCode res = "SUCCESS")) as [Hr|Hr].
  - destruct (decide (ResultCode res = "SUCCESS")) as [Hs|Hs].
    + rewrite Check_success by done. split; [by intros [? ?]|]. by intros [?|?].
    + rewrite Check_business by done. split; [by right|by eexists].
  - rewrite Check_transport by done. split; [by left|by eexists].
Qed.

(** Once the order is assembled, posted and the reply decoded, [Unify]
    answers by the check of the reply. *)
Lemma Unify_after_reply (o : Order) (key : string) (reqData : order) (t : list event)
    (data : bytes) (res : paidResponse) :
  run (prepare o key) = (Returned (reqData, None), t) →
  util_PostXML (baseURL +:+ unifyAPI) reqData = (data, None) →
  xml_Unmarshal_paidResponse data = (res, None) →
  run (Unify o key) =
    (Returned match Check (paidResponse_response res) with
              | Some e => (zero_PaidResponse, Some e)
              | None => (paidResponse_PaidResponse res, None)
              end,
     (t ++ [PostXML_called (baseURL +:+ unifyAPI) reqData])%list).
Proof.
  unfold run, Unify. intros Hp Hpost Hx.
  unfold mbind, M_bind, bind. rewrite Hp. unfold call. rewrite Hpost, Hx.
  by destruct (Check _).
Qed.

(** C2, as the code has it.  For every reply [res] of the gateway: when
    [ReturnCode] is not SUCCESS, [Unify] fails with the transport error made
    of [ReturnMsg], whatever the business fields hold; otherwise, when
    [ResultCode] is not SUCCESS, it fails with the business error made of
    [ErrCodeDes] alone, whatever [ErrCode] holds; otherwise it returns the
    embedded [PaidResponse] and no error. *)
Theorem Unify_two_tier (o : Order) (key : string) (reqData : order) (t : list event)
    (data : bytes) (res : paidResponse) :
  run (prepare o key) = (Returned (reqData, None), t) →
  util_PostXML (baseURL +:+ unifyAPI) reqData = (data, None) →
  xml_Unmarshal_paidResponse data = (res, None) →
  let r := paidResponse_response res in
  (ReturnCode r ≠ "SUCCESS" →
     (run (Unify o key)).1 =
       Returned (zero_PaidResponse, Some (errors_New ("交易失败: " +:+ ReturnMsg r)))
     ∧ ∀ result_code err_code err_code_des,
         Check (mkresponse (ReturnCode r) (ReturnMsg r) result_code err_code err_code_des)
         = Check r)
  ∧ (ReturnCode r = "SUCCESS" → ResultCode r ≠ "SUCCESS" →
     (run (Unify o key)).1 =
       Returned (zero_PaidResponse, Some (errors_New ("发生错误: " +:+ ErrCodeDes r)))
     ∧ ∀ err_code,
         Check (mkresponse (ReturnCode r) (ReturnMsg r) (ResultCode r) err_code
                  (ErrCodeDes r))
         = Check r)
  ∧ (ReturnCode r = "SUCCESS" → ResultCode r = "SUCCESS" →
     (run (Unify o key)).1 = Returned (paidResponse_PaidResponse res, None)).
Proof.
  intros Hp Hpost Hx r.
  rewrite (Unify_after_reply _ _ _ _ _ _ Hp Hpost Hx). fold r. simpl.
  split; [|split].
  - intros Hr. rewrite !Check_transport by done. split; [done|].
    intros rc ec ed. by rewrite Check_transport.
  - intros Hr Hs. rewrite !Check_business by done. split; [done|].
    intros ec. by rewrite Check_business.
  - intros Hr Hs. by rewrite Check_success.
Qed.

End StatusCheck.

Lemma Sample_prepare_run :
  run (prepare (H := Sample.shop) Sample.intent "k")
    = (Returned (Sample.request, None), Sample.calls).
Proof.
  rewrite prepare_run. cbv zeta.
  change (String.eqb (Order_IP Sample.intent) "") with true. cbv iota.
  unfold signing. cbv zeta. f_equal; vm_compute; reflexivity.
Qed.

(** The sample order, refused by the gateway as already paid: the error holds
    the description of the failure. *)
Lemma Unify_two_tier_witness :
  (run (Unify (H := Sample.shop) Sample.intent "k")).1 =
    Returned (zero_PaidResponse, Some (errors_New "发生错误: order paid")).
Proof.
  destruct (Unify_two_tier (H := Sample.shop) Sample.intent "k" Sample.request
              Sample.calls Sample.reply_paid Sample.reply) as (_ & Hb & _);
    [apply Sample_prepare_run | reflexivity | vm_compute; reflexivity |].
  apply Hb; [reflexivity | discriminate].
Defined.

(** C2, as stated, fails: the business error does not carry [ErrCode]. *)
Lemma Check_error_omits_ErrCode :
  ReturnCode Sample.refused = "SUCCESS"
  ∧ ResultCode Sample.refused ≠ "SUCCESS"
  ∧ Check Sample.refused = Some (errors_New "发生错误: order paid")
  ∧ ¬ carries (errors_New "发生错误: order paid") (ErrCode Sample.refused).
Proof.
  split; [reflexivity|]. split; [discriminate|]. split; [reflexivity|].
  unfold carries. vm_compute. discriminate.
Qed.

(** ** Client parameters *)

Section ClientParameters.
Context `{Env}.

(** C7.  [GetParams] fails with the nonce error for every nonce longer than
    32 bytes, without calling the signer.  For every other nonce it reads the
    clock, calls the signer once on exactly the five fields [appId],
    [signType], [nonceStr], [package] and [timeStamp], and returns the
    parameters with [SignType] set to MD5, [Package] set to ["prepay_id="]
    followed by the prepay identifier, the Unix seconds of the clock in
    decimal as [Timestamp], the signature as [PaySign], and the error of the
    signer, if any. *)
Theorem GetParams_nonce (appID key nonceStr prepayID : string) :
  (32 < len nonceStr →
     run (GetParams appID key nonceStr prepayID) =
       (Returned (zero_Params, Some (errors_New "随机字符串长度为32个字符以下")), []))
  ∧ (len nonceStr ≤ 32 →
     let Timestamp := strconv.FormatInt10 time_Now_Unix in
     let Package := "prepay_id=" +:+ prepayID in
     let data : gmap string string :=
       list_to_map [ ("appId", appID); ("signType", "MD5"); ("nonceStr", nonceStr);
                     ("package", Package); ("timeStamp", Timestamp) ] in
     dom data = ({[ "appId"; "signType"; "nonceStr"; "package"; "timeStamp" ]} : gset string)
     ∧ run (GetParams appID key nonceStr prepayID) =
         (Returned ({| Params_Timestamp := Timestamp; Params_NonceStr := nonceStr;
                       Params_SignType := "MD5";
                       Params_PaySign := (util_SignByMD5 data key).1;
                       Params_Package := Package |},
                    (util_SignByMD5 data key).2),
          [Now_called; SignByMD5_called data key])).
Proof.
  split.
  - intros Hlen. unfold run, GetParams.
    apply Z.ltb_lt in Hlen. by rewrite Hlen.
  - intros Hlen Timestamp Package data. split.
    + unfold data. rewrite dom_list_to_map_L. simpl. set_solver.
    + unfold run, GetParams. apply Z.ltb_ge in Hlen. rewrite Hlen.
      unfold mbind, M_bind, bind, call, ret, data, Timestamp, Package. simpl.
      by destruct (util_SignByMD5 _ key).
Qed.

End ClientParameters.

(** A nonce of 33 bytes is refused; the nonce of the sample order gives the
    signed parameters. *)
Lemma GetParams_nonce_witness :
  run (GetParams (H := Sample.shop) "wx1" "k" "5K8264ILTKCH16CQ2502SI8ZNMTM67VS0"
         "wx201410272009395522657a690389285100")
    = (Returned (zero_Params, Some (errors_New "随机字符串长度为32个字符以下")), [])
  ∧ (run (GetParams (H := Sample.shop) "wx1" "k" Sample.nonce
            "wx201410272009395522657a690389285100")).1
    = Returned ({| Params_Timestamp := "1700000000";
                   Params_NonceStr := "5K8264ILTKCH16CQ2502SI8ZNMTM67VS";
                   Params_SignType := "MD5";
                   Params_PaySign := "D353A586AEE8CAB3A904562FBAA701F7";
                   Params_Package := "prepay_id=wx201410272009395522657a690389285100" |},
                None).
Proof.
  split.
  - apply (GetParams_nonce (H := Sample.shop)). reflexivity.
  - destruct (GetParams_nonce (H := Sample.shop) "wx1" "k" Sample.nonce
                "wx201410272009395522657a690389285100") as [_ Hok].
    destruct Hok as [_ Hrun]; [discriminate|].
    rewrite Hrun. vm_compute. reflexivity.
Defined.

(** ** Notifications *)

Lemma append_empty_r (s : string) : s +:+ "" = s.
Proof.
  induction s as [|c s IH]; [done|].
  change (String c s +:+ "") with (String c (s +:+ "")). by rewrite IH.
Qed.

Lemma Sprintf_coupon_id (i : Z) :
  Sprintf "coupon_id_%d" [i] = "coupon_id_" +:+ strconv.Itoa i.
Proof.
  change (Sprintf "coupon_id_%d" [i]) with ("coupon_id_" +:+ (strconv.Itoa i +:+ "")).
  by rewrite append_empty_r.
Qed.

Lemma Sprintf_coupon_fee (i : Z) :
  Sprintf "coupon_fee_%d" [i] = "coupon_fee_" +:+ strconv.Itoa i.
Proof.
  change (Sprintf "coupon_fee_%d" [i]) with ("coupon_fee_" +:+ (strconv.Itoa i +:+ "")).
  by rewrite append_empty_r.
Qed.

(** What [ParseInt] returns next to an error: zero for a syntax error, the
    nearest bound for a range error. *)
Lemma ParseInt_error_value (s : string) :
  match strconv.ParseInt10_64 s with
  | (v, Some strconv.ErrSyntax) => v = 0
  | (v, Some strconv.ErrRange) => v = 2 ^ 63 - 1 ∨ v = - 2 ^ 63
  | (v, None) => True
  end.
Proof.
  unfold strconv.ParseInt10_64. destruct s as [|c s]; [done|].
  destruct (strconv.ParseUint10_64 _) as [un [[]|]]; [done| |];
    destruct (Ascii.eqb c "-"); cbn [negb andb];
    repeat match goal with
           | |- context [if ?b then _ else _] => destruct b eqn:?
           end; auto.
Qed.

Section Coupons.
Context `{Env}.

Lemma NewCouponResponseModel_run (root : Element) (i : Z) (t : list event) :
  NewCouponResponseModel (Some root) "coupon_id_%d" "coupon_fee_%d" [i] t =
    (match coupon_at root i with
     | Some m => Returned m
     | None => Panicked nil_dereference
     end, t).
Proof.
  unfold NewCouponResponseModel, coupon_at, mbind, M_bind, bind, SelectElement, Text, ret, panic.
  destruct (find_child (Sprintf "coupon_id_%d" [i]) (Child root)) as [a|]; [|done].
  destruct (find_child (Sprintf "coupon_fee_%d" [i]) (Child root)) as [b|]; [|done].
  by destruct (strconv.ParseInt10_64 (CharData b)).
Qed.

Lemma with_coupons_nil (ntf : paidNotify) : with_coupons ntf [] = ntf.
Proof.
  destruct ntf as [r n]. destruct n. unfold with_coupons. simpl.
  by rewrite app_nil_r.
Qed.

Lemma with_coupons_cons (ntf : paidNotify) (m : CouponResponseModel)
    (ms : list CouponResponseModel) :
  with_coupons (append_Coupon ntf m) ms = with_coupons ntf (m :: ms).
Proof.
  unfold with_coupons, append_Coupon. simpl. by rewrite <- app_assoc.
Qed.

(** The loop gathers the coupons of the indexes [i], [i+1], ... in that
    order, and panics when one of them is not there. *)
Lemma coupon_loop_run (root : Element) (n : nat) (i : Z) (ntf : paidNotify)
    (t : list event) :
  coupon_loop (Some root) n i ntf t =
    (match mapM (coupon_at root) (seqZ i (Z.of_nat n)) with
     | Some ms => Returned (with_coupons ntf ms)
     | None => Panicked nil_dereference
     end, t).
Proof.
  revert i ntf. induction n as [|n IH]; intros i ntf.
  - simpl. by rewrite with_coupons_nil.
  - rewrite seqZ_cons by lia.
    replace (Z.pred (Z.of_nat (S n))) with (Z.of_nat n) by lia.
    cbn [coupon_loop mapM]. unfold mbind at 1. unfold M_bind, bind.
    rewrite NewCouponResponseModel_run.
    destruct (coupon_at root i) as [m|]; [|done].
    rewrite IH. replace (Z.succ i) with (i + 1) by lia. simpl.
    destruct (mapM (coupon_at root) (seqZ (i + 1) (Z.of_nat n))) as [ms|]; [|done].
    simpl. by rewrite with_coupons_cons.
Qed.

Lemma coupon_loop_nil (n : nat) (i : Z) (ntf : paidNotify) (t : list event) :
  coupon_loop None (S n) i ntf t = (Panicked nil_dereference, t).
Proof. done. Qed.

(** [HandlePaidNotify] in closed form. *)
Lemma HandlePaidNotify_run (res : ResponseWriter) (req : Request)
    (fuck : PaidNotify -> bool * string) :
  run (HandlePaidNotify res req fuck) =
    match Body_ReadAll req with
    | (body, Some e) => (Returned (Some e), [])
    | (body, None) =>
        match xml_Unmarshal_paidNotify body with
        | (ntf, Some e) => (Returned (Some e), [])
        | (ntf, None) =>
            match extract_coupons body ntf with
            | Panicked msg => (Panicked msg, [])
            | Returned (inl e) => (Returned (Some e), [])
            | Returned (inr ntf) =>
                match Check (paidNotify_response ntf) with
                | Some e => (Returned (Some e), [])
                | None => acknowledge res fuck (paidNotify_PaidNotify ntf)
                end
            end
        end
    end.
Proof.
  unfold run, HandlePaidNotify, extract_coupons.
  destruct (Body_ReadAll req) as [body [e|]]; [done|].
  destruct (xml_Unmarshal_paidNotify body) as [ntf [e|]]; [done|].
  set (count := PaidNotify_CouponCount (paidNotify_PaidNotify ntf)).
  assert (Hend : ∀ ntf' : paidNotify,
    match Check (paidNotify_response ntf') with
    | Some e => ret (Some e)
    | None =>
        '(ok, msg) ← call (callback_called (paidNotify_PaidNotify ntf'))
                         (fuck (paidNotify_PaidNotify ntf'));
        let replay := newReplay ok msg in
        let '(b, err) := xml_Marshal_replay replay in
        match err with
        | Some e => ret (Some e)
        | None =>
            _ ← call (WriteHeader_called 200) tt;
            err ← call (Write_called b) (Write_err res b);
            ret err
        end
    end [] =
    match Check (paidNotify_response ntf') with
    | Some e => (Returned (Some e), [])
    | None => acknowledge res fuck (paidNotify_PaidNotify ntf')
    end).
  { intros ntf'. destruct (Check _); [done|].
    unfold acknowledge, mbind, M_bind, bind, call, ret.
    destruct (fuck (paidNotify_PaidNotify ntf')) as [ok msg]. simpl.
    by destruct (xml_Marshal_replay (newReplay ok msg)) as [b [e|]]. }
  unfold mbind at 1. unfold M_bind, bind.
  destruct (0 <? count) eqn:Hc.
  - destruct (etree_ReadFromBytes body) as [doc [e|]]; [done|].
    unfold mbind at 1. unfold M_bind, bind. unfold SelectElement at 1. unfold ret at 1.
    unfold mbind at 1. unfold M_bind, bind.
    destruct (find_child "xml" (Child doc)) as [root|].
    + rewrite coupon_loop_run. rewrite Z2Nat.id by lia.
      destruct (mapM (coupon_at root) (seqZ 0 count)) as [ms|]; [|done].
      unfold ret at 1. apply Hend.
    + apply Z.ltb_lt in Hc. destruct (Z.to_nat count) as [|n] eqn:Hn; [lia|].
      by rewrite coupon_loop_nil.
  - unfold ret at 1. apply Hend.
Qed.

Lemma decided_acknowledge (res : ResponseWriter) (fuck : PaidNotify -> bool * string)
    (n : PaidNotify) :
  decided (acknowledge res fuck n).2 = [n].
Proof.
  unfold acknowledge. by destruct (xml_Marshal_replay _) as [b [e|]].
Qed.

(** The coupons found for a list of expected items. *)
Lemma coupons_found (root : Element) (items : list CouponResponseModel) :
  (∀ (i : nat) m, items !! i = Some m →
     ∃ a b,
       find_child ("coupon_id_" +:+ strconv.Itoa (Z.of_nat i)) (Child root) = Some a
       ∧ find_child ("coupon_fee_" +:+ strconv.Itoa (Z.of_nat i)) (Child root) = Some b
       ∧ CharData a = CouponId m
       ∧ strconv.ParseInt10_64 (CharData b) = (CouponFee m, None)) →
  mapM (coupon_at root) (seqZ 0 (Z.of_nat (List.length items))) = Some items.
Proof.
  intros Hitems. apply mapM_Some, Forall2_same_length_lookup. split.
  - rewrite length_seqZ. lia.
  - intros i z m [-> Hi]%lookup_seqZ Hm.
    destruct (Hitems i m Hm) as (a & b & Ha & Hb & Hid & Hfee).
    unfold coupon_at. rewrite Sprintf_coupon_id, Sprintf_coupon_fee.
    replace (0 + Z.of_nat i) with (Z.of_nat i) by lia.
    rewrite Ha, Hb, Hid, Hfee. by destruct m.
Qed.

(** C5.  When the body declares [N > 0] coupons and its root element [xml]
    holds [coupon_id_i] and [coupon_fee_i] for every [i] below [N], the
    coupon loop yields exactly the [N] items in index order, each made of the
    text of [coupon_id_i] and the integer [coupon_fee_i] parses to, and the
    caller's decision function receives them once the status check passes.
    When the declared count is zero, no item is produced.  (The decoder
    leaves [Coupons] empty: its tag is [xml:"-"].) *)
Theorem coupons_in_order (res : ResponseWriter) (req : Request)
    (fuck : PaidNotify -> bool * string) (body : bytes) (ntf : paidNotify) :
  Body_ReadAll req = (body, None) →
  xml_Unmarshal_paidNotify body = (ntf, None) →
  PaidNotify_Coupons (paidNotify_PaidNotify ntf) = [] →
  let count := PaidNotify_CouponCount (paidNotify_PaidNotify ntf) in
  (∀ doc root (items : list CouponResponseModel),
     0 < count → count = Z.of_nat (List.length items) →
     etree_ReadFromBytes body = (doc, None) →
     find_child "xml" (Child doc) = Some root →
     (∀ (i : nat) m, items !! i = Some m →
        ∃ a b,
          find_child ("coupon_id_" +:+ strconv.Itoa (Z.of_nat i)) (Child root) = Some a
          ∧ find_child ("coupon_fee_" +:+ strconv.Itoa (Z.of_nat i)) (Child root) = Some b
          ∧ CharData a = CouponId m
          ∧ strconv.ParseInt10_64 (CharData b) = (CouponFee m, None)) →
     run (coupon_loop (Some root) (Z.to_nat count) 0 ntf)
       = (Returned (with_coupons ntf items), [])
     ∧ PaidNotify_Coupons (paidNotify_PaidNotify (with_coupons ntf items)) = items
     ∧ (Check (paidNotify_response ntf) = None →
        decided (run (HandlePaidNotify res req fuck)).2
          = [paidNotify_PaidNotify (with_coupons ntf items)]))
  ∧ (count = 0 →
     extract_coupons body ntf = Returned (inr ntf)
     ∧ (Check (paidNotify_response ntf) = None →
        decided (run (HandlePaidNotify res req fuck)).2 = [paidNotify_PaidNotify ntf])).
Proof.
  intros Hbody Hntf Hnil count. split.
  - intros doc root items Hpos Hcount Hdoc Hroot Hitems.
    pose proof (coupons_found root items Hitems) as Hfound.
    split; [|split].
    + unfold run. rewrite coupon_loop_run, Z2Nat.id by lia.
      fold count. by rewrite Hcount, Hfound.
    + unfold with_coupons. simpl. by rewrite Hnil.
    + intros Hcheck. rewrite HandlePaidNotify_run, Hbody, Hntf.
      unfold extract_coupons. fold count.
      apply Z.ltb_lt in Hpos. rewrite Hpos, Hdoc, Hroot, Hcount, Hfound.
      cbn [paidNotify_response with_coupons]. rewrite Hcheck.
      apply decided_acknowledge.
  - intros Hzero.
    assert (extract_coupons body ntf = Returned (inr ntf)) as Hx.
    { unfold extract_coupons. fold count. by rewrite Hzero. }
    split; [done|]. intros Hcheck.
    rewrite HandlePaidNotify_run, Hbody, Hntf, Hx, Hcheck. apply decided_acknowledge.
Qed.

End Coupons.

(** The two coupons of the sample notification, in index order. *)
Lemma coupons_in_order_witness :
  PaidNotify_Coupons <$>
    decided (run (HandlePaidNotify (H := Sample.shop) Sample.writer
                    (Sample.post (Sample.notify_coupons "S")) Sample.accept)).2
  = [[ {| CouponId := "A"; CouponFee := 100 |}; {| CouponId := "B"; CouponFee := 50 |} ]].
Proof.
  pose (body := Sample.notify_coupons "S").
  pose (ntf := (Wire.Unmarshal_paidNotify body).1).
  pose (doc := (Wire.ReadFromBytes body).1).
  destruct (coupons_in_order (H := Sample.shop) Sample.writer (Sample.post body)
              Sample.accept body ntf) as [Hpos _];
    [reflexivity | vm_compute; reflexivity | reflexivity |].
  destruct (Hpos doc (default doc (head (Child doc)))
              [ {| CouponId := "A"; CouponFee := 100 |};
                {| CouponId := "B"; CouponFee := 50 |} ]) as (_ & _ & Hdec);
    [reflexivity | reflexivity | vm_compute; reflexivity | vm_compute; reflexivity | |].
  - intros [|[|i]] m Hm; [| |discriminate Hm]; injection Hm as <-;
      do 2 eexists; (split; [|split; [|split]]); vm_compute; reflexivity.
  - fold body. rewrite Hdec; [|vm_compute; reflexivity]. vm_compute. reflexivity.
Defined.

Section Malformed.
Context `{Env}.

Lemma coupon_missing (root : Element) (count i : Z) :
  0 ≤ i < count → coupon_at root i = None →
  mapM (coupon_at root) (seqZ 0 count) = None.
Proof.
  intros Hi Hnone. destruct (mapM _ _) as [ms|] eqn:Hms; [|done].
  assert (is_Some (mapM (coupon_at root) (seqZ 0 count))) as Hall by (by rewrite Hms).
  apply mapM_is_Some in Hall. rewrite Forall_forall in Hall.
  destruct (Hall i) as [m Hm]; [apply elem_of_seqZ; lia|].
  simpl in Hm. congruence.
Qed.

(** C6, as the code has it.  When the body declares more coupons than its
    root element holds, [HandlePaidNotify] does not return an error: it
    panics on the nil element that [SelectElement] gave back. *)
Theorem missing_coupon_panics (res : ResponseWriter) (req : Request)
    (fuck : PaidNotify -> bool * string) (body : bytes) (ntf : paidNotify)
    (doc root : Element) (i : Z) :
  Body_ReadAll req = (body, None) →
  xml_Unmarshal_paidNotify body = (ntf, None) →
  etree_ReadFromBytes body = (doc, None) →
  find_child "xml" (Child doc) = Some root →
  0 ≤ i < PaidNotify_CouponCount (paidNotify_PaidNotify ntf) →
  find_child ("coupon_id_" +:+ strconv.Itoa i) (Child root) = None
  ∨ find_child ("coupon_fee_" +:+ strconv.Itoa i) (Child root) = None →
  run (HandlePaidNotify res req fuck) = (Panicked nil_dereference, []).
Proof.
  intros Hbody Hntf Hdoc Hroot Hi Hmiss.
  rewrite HandlePaidNotify_run, Hbody, Hntf. unfold extract_coupons.
  assert (coupon_at root i = None) as Hnone.
  { unfold coupon_at. rewrite Sprintf_coupon_id, Sprintf_coupon_fee.
    destruct Hmiss as [Hm | Hm]; rewrite Hm; [done|]. by case_match. }
  destruct (Z.ltb_spec 0 (PaidNotify_CouponCount (paidNotify_PaidNotify ntf))); [|lia].
  by rewrite Hdoc, Hroot, (coupon_missing root _ i Hi Hnone).
Qed.

Lemma with_coupons_response (ntf : paidNotify) (ms : list CouponResponseModel) :
  paidNotify_response (with_coupons ntf ms) = paidNotify_response ntf.
Proof. done. Qed.

Lemma extract_coupons_response (body : bytes) (ntf ntf' : paidNotify) :
  extract_coupons body ntf = Returned (inr ntf') →
  paidNotify_response ntf' = paidNotify_response ntf.
Proof.
  unfold extract_coupons. destruct (0 <? _); [|by intros [= <-]].
  destruct (etree_ReadFromBytes body) as [doc [e|]]; [done|].
  destruct (find_child "xml" (Child doc)) as [root|]; [|done].
  destruct (mapM _ _) as [ms|]; [|done]. by intros [= <-].
Qed.

(** Whatever else happens, a notification that fails the status check never
    reaches the decision function, and nothing is written back. *)
Lemma failed_status_never_decides (res : ResponseWriter) (req : Request)
    (fuck : PaidNotify -> bool * string) (body : bytes) (ntf : paidNotify) :
  Body_ReadAll req = (body, None) →
  xml_Unmarshal_paidNotify body = (ntf, None) →
  is_Some (Check (paidNotify_response ntf)) →
  (run (HandlePaidNotify res req fuck)).2 = [].
Proof.
  intros Hbody Hntf [e He]. rewrite HandlePaidNotify_run, Hbody, Hntf.
  destruct (extract_coupons body ntf) as [[e'|ntf']|msg] eqn:Hx; [done| |done].
  by rewrite (extract_coupons_response _ _ _ Hx), He.
Qed.

(** When the coupon step completes, the error of the status check is what
    [HandlePaidNotify] returns. *)
Lemma failed_status_returns_error (res : ResponseWriter) (req : Request)
    (fuck : PaidNotify -> bool * string) (body : bytes) (ntf ntf' : paidNotify)
    (e : error) :
  Body_ReadAll req = (body, None) →
  xml_Unmarshal_paidNotify body = (ntf, None) →
  extract_coupons body ntf = Returned (inr ntf') →
  Check (paidNotify_response ntf) = Some e →
  run (HandlePaidNotify res req fuck) = (Returned (Some e), []).
Proof.
  intros Hbody Hntf Hx He. rewrite HandlePaidNotify_run, Hbody, Hntf, Hx.
  by rewrite (extract_coupons_response _ _ _ Hx), He.
Qed.

(** C10, as the code has it.  When both elements of a coupon are there, the
    coupon is built whatever the text of the amount is, and no error is
    reported: the amount is the value [ParseInt] returns next to its error,
    zero for a syntax error and the nearest bound of 64-bit integers for a
    range error. *)
Theorem coupon_fee_parse_error (root : Element) (i : Z) (a b : Element) (t : list event) :
  find_child ("coupon_id_" +:+ strconv.Itoa i) (Child root) = Some a →
  find_child ("coupon_fee_" +:+ strconv.Itoa i) (Child root) = Some b →
  ∃ m, NewCouponResponseModel (Some root) "coupon_id_%d" "coupon_fee_%d" [i] t
         = (Returned m, t)
       ∧ CouponId m = CharData a
       ∧ CouponFee m = (strconv.ParseInt10_64 (CharData b)).1
       ∧ ((strconv.ParseInt10_64 (CharData b)).2 = Some strconv.ErrSyntax →
          CouponFee m = 0)
       ∧ ((strconv.ParseInt10_64 (CharData b)).2 = Some strconv.ErrRange →
          CouponFee m = 2 ^ 63 - 1 ∨ CouponFee m = - 2 ^ 63).
Proof.
  intros Ha Hb. rewrite NewCouponResponseModel_run. unfold coupon_at.
  rewrite Sprintf_coupon_id, Sprintf_coupon_fee, Ha, Hb.
  eexists. split; [done|]. split; [done|]. split; [done|]. cbn [CouponFee].
  pose proof (ParseInt_error_value (CharData b)) as Hv.
  destruct (strconv.ParseInt10_64 (CharData b)) as [v [[]|]]; simpl; split; by intros [=].
Qed.

End Malformed.

(** The sample notification that declares one coupon and holds none. *)
Lemma missing_coupon_panics_witness :
  run (HandlePaidNotify (H := Sample.shop) Sample.writer
         (Sample.post (Sample.notify_missing "SUCCESS")) Sample.accept)
    = (Panicked nil_dereference, []).
Proof.
  pose (body := Sample.notify_missing "SUCCESS").
  pose (doc := (Wire.ReadFromBytes body).1).
  apply (missing_coupon_panics (H := Sample.shop) _ _ _ body
           (Wire.Unmarshal_paidNotify body).1 doc (default doc (head (Child doc))) 0);
    [reflexivity | vm_compute; reflexivity | vm_compute; reflexivity
    | vm_compute; reflexivity | vm_compute; split; [discriminate | reflexivity]
    | left; vm_compute; reflexivity].
Defined.

(** C9 fails on the code: the same notification with a failed transport
    status.  The status check would fail, but the handler panics in the
    coupon step before it gets there. *)
Theorem failed_status_with_missing_coupon_panics :
  Check (paidNotify_response
           (xml_Unmarshal_paidNotify (Env := Sample.shop) (Sample.notify_missing "FAIL")).1)
    = Some (errors_New "交易失败: ")
  ∧ run (HandlePaidNotify (H := Sample.shop) Sample.writer
           (Sample.post (Sample.notify_missing "FAIL")) Sample.accept)
    = (Panicked nil_dereference, []).
Proof. split; vm_compute; reflexivity. Qed.

(** A coupon whose amount is not a number. *)
Lemma coupon_fee_parse_error_witness :
  ∃ m, NewCouponResponseModel
         (Some (mkElement "xml" "" [mkElement "coupon_id_0" "A" [];
                                    mkElement "coupon_fee_0" "12 yuan" []]))
         "coupon_id_%d" "coupon_fee_%d" [0] [] = (Returned m, [])
       ∧ CouponId m = "A" ∧ CouponFee m = 0.
Proof.
  destruct (coupon_fee_parse_error
              (mkElement "xml" "" [mkElement "coupon_id_0" "A" [];
                                   mkElement "coupon_fee_0" "12 yuan" []])
              0 (mkElement "coupon_id_0" "A" []) (mkElement "coupon_fee_0" "12 yuan" []) [])
    as (m & Hrun & Hid & _ & Hsyntax & _); [reflexivity | reflexivity |].
  exists m. split; [exact Hrun|]. split; [exact Hid|]. apply Hsyntax. reflexivity.
Defined.

(** C10, as stated, fails: an amount whose digits overflow 64 bits does not
    parse, whether or not other bytes follow the digits; no error is
    reported, and the amount is not zero but the largest 64-bit integer. *)
Lemma overflowing_fee_is_not_zero :
  strconv.ParseInt10_64 "9223372036854775808"
    = (9223372036854775807, Some strconv.ErrRange)
  ∧ strconv.ParseInt10_64 "99999999999999999999 yuan"
    = (9223372036854775807, Some strconv.ErrRange)
  ∧ (run (HandlePaidNotify (H := Sample.shop) Sample.writer
            (Sample.post Sample.notify_overflow) Sample.accept)).1 = Returned None
  ∧ PaidNotify_Coupons <$>
      decided (run (HandlePaidNotify (H := Sample.shop) Sample.writer
                      (Sample.post Sample.notify_overflow) Sample.accept)).2
    = [[ {| CouponId := "A"; CouponFee := 9223372036854775807 |} ]].
Proof. repeat split; vm_compute; reflexivity. Qed.

(** *** The signature of a notification *)

Lemma Tag_erase_sign (e : Element) : Tag (erase_sign e) = Tag e.
Proof. by destruct e. Qed.

Lemma Child_erase_sign (e : Element) : Child (erase_sign e) = map erase_sign (Child e).
Proof. by destruct e. Qed.

Lemma CharData_erase_sign (e : Element) :
  Tag e ≠ "sign" → CharData (erase_sign e) = CharData e.
Proof.
  destruct e as [tag text cs]. simpl. intros Htag.
  by destruct (String.eqb_spec tag "sign").
Qed.

Lemma find_child_erase_sign (tag : string) (cs : list Element) :
  find_child tag (map erase_sign cs) = erase_sign <$> find_child tag cs.
Proof.
  induction cs as [|c cs IH]; [done|]. simpl. rewrite Tag_erase_sign.
  by destruct (String.eqb (Tag c) tag).
Qed.

Lemma find_child_Tag (tag : string) (cs : list Element) (e : Element) :
  find_child tag cs = Some e → Tag e = tag.
Proof.
  induction cs as [|c cs IH]; [done|]. simpl.
  destruct (String.eqb_spec (Tag c) tag); [by intros [= <-] | done].
Qed.

(** The children of two trees equal up to the signature, looked up under any
    tag but [sign], are both absent or both present with the same text. *)
Lemma find_child_text_same (tag : string) (r1 r2 : Element) :
  erase_sign r1 = erase_sign r2 → tag ≠ "sign" →
  CharData <$> find_child tag (Child r1) = CharData <$> find_child tag (Child r2).
Proof.
  intros Hr Htag.
  assert (erase_sign <$> find_child tag (Child r1)
          = erase_sign <$> find_child tag (Child r2)) as He.
  { by rewrite <- !find_child_erase_sign, <- !Child_erase_sign, Hr. }
  destruct (find_child tag (Child r1)) as [a1|] eqn:H1,
           (find_child tag (Child r2)) as [a2|] eqn:H2; simplify_eq/=; [|done].
  apply find_child_Tag in H1, H2. f_equal.
  rewrite <- (CharData_erase_sign a1), <- (CharData_erase_sign a2) by congruence.
  by f_equal.
Qed.

Lemma coupon_at_same (r1 r2 : Element) (i : Z) :
  erase_sign r1 = erase_sign r2 → coupon_at r1 i = coupon_at r2 i.
Proof.
  intros Hr. unfold coupon_at. rewrite Sprintf_coupon_id, Sprintf_coupon_fee.
  pose proof (find_child_text_same ("coupon_id_" +:+ strconv.Itoa i) r1 r2 Hr) as Hid.
  pose proof (find_child_text_same ("coupon_fee_" +:+ strconv.Itoa i) r1 r2 Hr) as Hfee.
  destruct (find_child ("coupon_id_" +:+ _) (Child r1)),
           (find_child ("coupon_id_" +:+ _) (Child r2)),
           (find_child ("coupon_fee_" +:+ _) (Child r1)),
           (find_child ("coupon_fee_" +:+ _) (Child r2));
    simpl in Hid, Hfee; try specialize (Hid ltac:(discriminate));
    try specialize (Hfee ltac:(discriminate)); simplify_eq; try done.
  by rewrite Hid, Hfee.
Qed.

Lemma mapM_coupon_at_same (r1 r2 : Element) (l : list Z) :
  erase_sign r1 = erase_sign r2 → mapM (coupon_at r1) l = mapM (coupon_at r2) l.
Proof.
  intros Hr. induction l as [|i l IH]; [done|]. simpl.
  by rewrite (coupon_at_same r1 r2 i Hr), IH.
Qed.

Section Signature.
Context `{Env}.

(** The coupon step does not look at the signature. *)
Lemma extract_coupons_sign_blind (b1 b2 : bytes) (r : response) (n : PaidNotify)
    (s : string) :
  (etree_ReadFromBytes b1).2 = (etree_ReadFromBytes b2).2 →
  erase_sign (etree_ReadFromBytes b1).1 = erase_sign (etree_ReadFromBytes b2).1 →
  match extract_coupons b1 (mkpaidNotify r n) with
  | Returned (inr ntf1) =>
      ∃ ms, ntf1 = with_coupons (mkpaidNotify r n) ms
            ∧ extract_coupons b2 (mkpaidNotify r (PaidNotify_set_Sign n s))
              = Returned (inr (with_coupons (mkpaidNotify r (PaidNotify_set_Sign n s)) ms))
  | other =>
      extract_coupons b2 (mkpaidNotify r (PaidNotify_set_Sign n s)) = other
  end.
Proof.
  intros Herr Hdoc. unfold extract_coupons. cbn [paidNotify_PaidNotify PaidNotify_set_Sign
    PaidNotify_CouponCount].
  destruct (0 <? PaidNotify_CouponCount n).
  - destruct (etree_ReadFromBytes b1) as [d1 e1], (etree_ReadFromBytes b2) as [d2 e2].
    simpl in Herr, Hdoc. subst e2. destruct e1 as [e|]; [done|].
    assert (erase_sign <$> find_child "xml" (Child d1)
            = erase_sign <$> find_child "xml" (Child d2)) as Hroot.
    { by rewrite <- !find_child_erase_sign, <- !Child_erase_sign, Hdoc. }
    destruct (find_child "xml" (Child d1)) as [r1|], (find_child "xml" (Child d2)) as [r2|];
      simplify_eq/=; [|done].
    rewrite (mapM_coupon_at_same r1 r2) by done.
    destruct (mapM (coupon_at r2) _) as [ms|]; [|done]. by exists ms.
  - exists []. by rewrite !with_coupons_nil.
Qed.

Lemma with_coupons_set_Sign (r : response) (n : PaidNotify) (s : string)
    (ms : list CouponResponseModel) :
  paidNotify_PaidNotify (with_coupons (mkpaidNotify r (PaidNotify_set_Sign n s)) ms)
  = PaidNotify_set_Sign (paidNotify_PaidNotify (with_coupons (mkpaidNotify r n) ms)) s.
Proof. done. Qed.

(** C4, as the code has it.  Take two bodies that differ only in the value of
    the [sign] field and the same decision function.  If the first run ends
    before the decision, the second run ends the same way.  If the first run
    reaches the decision function, so does the second, with a notification
    that differs in [Sign] only; and whenever the decision function answers
    both alike, as every function that does not read [Sign] does, the two
    runs return the same result and write the same acknowledgement.  Nothing
    in the handler compares [Sign] with a key. *)
Theorem sign_not_verified (res : ResponseWriter) (b1 b2 : bytes) (rerr : option error)
    (fuck : PaidNotify -> bool * string) :
  differ_only_in_sign b1 b2 →
  let run1 := run (HandlePaidNotify res (mkRequest (b1, rerr)) fuck) in
  let run2 := run (HandlePaidNotify res (mkRequest (b2, rerr)) fuck) in
  (decided run1.2 = [] → run2 = run1)
  ∧ (∀ n1, decided run1.2 = [n1] →
       ∃ s, decided run2.2 = [PaidNotify_set_Sign n1 s]
            ∧ (fuck (PaidNotify_set_Sign n1 s) = fuck n1 →
               run2.1 = run1.1 ∧ written run2.2 = written run1.2)).
Proof.
  intros (Herr & Hresp & [s Hs] & Hterr & Hdoc) run1 run2.
  subst run1 run2. rewrite !HandlePaidNotify_run. cbn [Body_ReadAll].
  destruct rerr as [e|]; [by split|].
  destruct (xml_Unmarshal_paidNotify b1) as [[r1 n1] e1],
           (xml_Unmarshal_paidNotify b2) as [[r2 n2] e2].
  simpl in Herr, Hresp, Hs. subst e2 r2 n2.
  destruct e1 as [e|]; [by split|].
  pose proof (extract_coupons_sign_blind b1 b2 r1 n1 s Hterr Hdoc) as Hx.
  destruct (extract_coupons b1 (mkpaidNotify r1 n1)) as [[e|ntf1]|msg].
  - rewrite Hx. by split.
  - destruct Hx as (ms & -> & ->). rewrite !with_coupons_response.
    cbn [paidNotify_response]. destruct (Check r1) as [e|]; [by split|].
    rewrite with_coupons_set_Sign.
    set (m1 := paidNotify_PaidNotify (with_coupons (mkpaidNotify r1 n1) ms)).
    split.
    + by rewrite decided_acknowledge.
    + intros n. rewrite decided_acknowledge. intros [= <-]. exists s.
      split; [apply decided_acknowledge|]. intros Hsame.
      unfold acknowledge. rewrite Hsame.
      by destruct (xml_Marshal_replay _) as [b [e|]].
  - rewrite Hx. by split.
Qed.

End Signature.

Lemma Sample_differ_only_in_sign :
  differ_only_in_sign (H := Sample.shop)
    (Sample.notify_coupons "C380BEC2BFD727A4B6845133519F3AD6")
    (Sample.notify_coupons "FORGED").
Proof.
  unfold differ_only_in_sign. split; [vm_compute; reflexivity|].
  split; [vm_compute; reflexivity|]. split; [exists "FORGED"; vm_compute; reflexivity|].
  split; vm_compute; reflexivity.
Qed.

(** Two sample notifications that differ in their signature, handed to a
    caller that accepts everything: both are acknowledged alike. *)
Lemma sign_not_verified_witness :
  (run (HandlePaidNotify (H := Sample.shop) Sample.writer
          (Sample.post (Sample.notify_coupons "FORGED")) Sample.accept)).1
  = (run (HandlePaidNotify (H := Sample.shop) Sample.writer
            (Sample.post (Sample.notify_coupons "C380BEC2BFD727A4B6845133519F3AD6"))
            Sample.accept)).1
  ∧ written (run (HandlePaidNotify (H := Sample.shop) Sample.writer
                    (Sample.post (Sample.notify_coupons "FORGED")) Sample.accept)).2
    = written (run (HandlePaidNotify (H := Sample.shop) Sample.writer
                      (Sample.post
                         (Sample.notify_coupons "C380BEC2BFD727A4B6845133519F3AD6"))
                      Sample.accept)).2.
Proof.
  destruct (sign_not_verified (H := Sample.shop) Sample.writer
              (Sample.notify_coupons "C380BEC2BFD727A4B6845133519F3AD6")
              (Sample.notify_coupons "FORGED") None Sample.accept
              Sample_differ_only_in_sign) as [_ Hreach].
  destruct (Hreach (PaidNotify_set_Coupons
                      (paidNotify_PaidNotify
                         (Wire.Unmarshal_paidNotify
                            (Sample.notify_coupons "C380BEC2BFD727A4B6845133519F3AD6")).1)
                      [ {| CouponId := "A"; CouponFee := 100 |};
                        {| CouponId := "B"; CouponFee := 50 |} ]))
    as (s & _ & Hsame); [vm_compute; reflexivity|].
  apply Hsame. reflexivity.
Defined.

(** C4, as stated, fails: the two bodies differ only in the signature, the
    decision function is the same, and the acknowledgements differ, because
    the decision function receives the signature and may check it. *)
Lemma sign_reaches_decision :
  differ_only_in_sign (H := Sample.shop)
    (Sample.notify_coupons "C380BEC2BFD727A4B6845133519F3AD6")
    (Sample.notify_coupons "FORGED")
  ∧ written (run (HandlePaidNotify (H := Sample.shop) Sample.writer
                    (Sample.post
                       (Sample.notify_coupons "C380BEC2BFD727A4B6845133519F3AD6"))
                    Sample.verify)).2
    = [Wire.to_bytes ("<replay><return_code>SUCCESS</return_code>"
                      +:+ "<return_msg></return_msg></replay>")]
  ∧ written (run (HandlePaidNotify (H := Sample.shop) Sample.writer
                    (Sample.post (Sample.notify_coupons "FORGED")) Sample.verify)).2
    = [Wire.to_bytes ("<replay><return_code>FAIL</return_code>"
                      +:+ "<return_msg>bad sign</return_msg></replay>")].
Proof.
  split; [apply Sample_differ_only_in_sign|]. split; vm_compute; reflexivity.
Qed.

(** ** The signer *)

(** However strings are enumerated, sorting them gives the one ascending
    list. *)
Lemma sorted_names_unique (l1 l2 : list string) :
  l1 ≡ₚ l2 → Sorted String.le l1 → merge_sort String.le l2 = l1.
Proof.
  intros Hp Hs. apply (Sorted_unique String.le).
  - apply Sorted_merge_sort. apply _.
  - done.
  - by rewrite merge_sort_Permutation.
Qed.

(** The signature for pairs ranged over in any order, from their renderings
    in ascending order. *)
Lemma sign_ranged_sorted (ranged : list (string * string)) (sorted : list string)
    (key : string) :
  sorted ≡ₚ map Signer.pair ranged → Sorted String.le sorted →
  Signer.sign_ranged ranged key =
    (Signer.upper_hex (MD5.sum (Signer.bytes_of
       (String.concat "&" (sorted ++ ["key=" +:+ key])))), None).
Proof.
  intros Hp Hs. unfold Signer.sign_ranged, Signer.signed_string, Signer.query.
  by rewrite (sorted_names_unique sorted).
Qed.

(** The strings that are hashed, and the strings the specification words,
    for a field set with an empty value and for one with a name that is a
    prefix of another. *)
Example signed_string_three_fields :
  Signer.signed_string (map_to_list Scenario.three_fields) "k"
    = "appid=wx1&attach=&body=Item&key=k"
  ∧ Signer.specified_string Scenario.three_fields "k" = "appid=wx1&body=Item&key=k".
Proof. split; vm_compute; reflexivity. Qed.

Example signed_string_prefixed_names :
  Signer.signed_string (map_to_list Scenario.prefixed_names) "k" = "a0=2&a=1&key=k"
  ∧ Signer.specified_string Scenario.prefixed_names "k" = "a=1&a0=2&key=k".
Proof. split; vm_compute; reflexivity. Qed.

(** On the sample order, which signs no empty value, the two agree. *)
Example signature_of_sample :
  Signer.SignByMD5 Sample.fields "k" = ("C3C32EE7B6EB43AC9E03B63BADD0B232", None)
  ∧ Signer.specified_signature Sample.fields "k" = "C3C32EE7B6EB43AC9E03B63BADD0B232".
Proof. split; vm_compute; reflexivity. Qed.

(** C1, as the code has it.  For every mapping of field names to values and every
    secret key: with [sorted] the renderings [name=value] of all its
    fields, those with an empty value included, in ascending byte order,
    the signature is the uppercase hexadecimal MD5 digest of these strings
    and [key=<secretKey>], joined by [&], in whatever order the pairs of
    the mapping are ranged over; and when the signer of the package is
    [util.SignByMD5], this is the [Sign] that [prepare] returns, without an
    error, for the field set it signed. *)
Theorem prepare_signature_canonical `{Env} (data : gmap string string) (key : string)
    (ranged : list (string * string)) (sorted : list string) (o : Order) :
  ranged ≡ₚ map_to_list data →
  sorted ≡ₚ map Signer.pair (map_to_list data) →
  Sorted String.le sorted →
  let signature :=
    Signer.upper_hex (MD5.sum (Signer.bytes_of
      (String.concat "&" (sorted ++ ["key=" +:+ key])))) in
  Signer.sign_ranged ranged key = (signature, None)
  ∧ ((∀ d k, util_SignByMD5 d k = Signer.SignByMD5 d k) →
     data ∈ signed_fields (run (prepare o key)).2 →
     ∃ od, (run (prepare o key)).1 = Returned (od, None) ∧ order_Sign od = signature).
Proof.
  intros Hranged Hsorted Hs signature. split.
  - apply sign_ranged_sorted; [by rewrite Hranged | done].
  - intros Hlib. rewrite prepare_run. unfold signing. cbv zeta.
    assert (∀ t, data ∈ signed_fields (t ++ [SignByMD5_called
                   (assembled_fields o (util_RandomString 32) (final_IP o)) key]) →
                 signed_fields t = [] →
                 Signer.SignByMD5
                   (assembled_fields o (util_RandomString 32) (final_IP o)) key
                 = (signature, None)) as Hsign.
    { intros t Hin Ht. unfold signed_fields in *. rewrite omap_app, Ht in Hin.
      apply list_elem_of_singleton in Hin as <-.
      by apply sign_ranged_sorted. }
    unfold final_IP in Hsign.
    destruct (String.eqb (Order_IP o) "").
    + destruct util_FetchIP as [ip [e|]]; [by intros ?%elem_of_nil|].
      cbn [fst snd] in *. intros Hin. rewrite Hlib, (Hsign _ Hin) by done.
      by eexists.
    + cbn [fst snd]. intros Hin. rewrite Hlib, (Hsign _ Hin) by done.
      by eexists.
Qed.

(** The sample order without a description: its empty [body] is signed. *)
Lemma prepare_signature_canonical_witness :
  Signer.sign_ranged
    [ ("appid", "wx1"); ("body", ""); ("mch_id", "10000");
      ("nonce_str", "5K8264ILTKCH16CQ2502SI8ZNMTM67VS"); ("notify_url", "https://x/cb");
      ("openid", "oUser1"); ("out_trade_no", "ON001"); ("total_fee", "100");
      ("trade_type", "JSAPI"); ("sign_type", "MD5"); ("spbill_create_ip", "10.0.0.1");
      ("time_expire", "20091225091010"); ("detail", "two items");
      ("limit_pay", "no_credit") ] "k"
    = ("F1466FD84612B6AA581689E34D379F27", None)
  ∧ ∃ od, (run (prepare (H := Sample.shop) Scenario.untitled "k")).1 = Returned (od, None)
          ∧ order_Sign od = "F1466FD84612B6AA581689E34D379F27".
Proof.
  destruct (prepare_signature_canonical (H := Sample.shop) Scenario.untitled_fields "k"
    [ ("appid", "wx1"); ("body", ""); ("mch_id", "10000");
      ("nonce_str", "5K8264ILTKCH16CQ2502SI8ZNMTM67VS"); ("notify_url", "https://x/cb");
      ("openid", "oUser1"); ("out_trade_no", "ON001"); ("total_fee", "100");
      ("trade_type", "JSAPI"); ("sign_type", "MD5"); ("spbill_create_ip", "10.0.0.1");
      ("time_expire", "20091225091010"); ("detail", "two items");
      ("limit_pay", "no_credit") ]
    [ "appid=wx1"; "body="; "detail=two items"; "limit_pay=no_credit"; "mch_id=10000";
      "nonce_str=5K8264ILTKCH16CQ2502SI8ZNMTM67VS"; "notify_url=https://x/cb";
      "openid=oUser1"; "out_trade_no=ON001"; "sign_type=MD5";
      "spbill_create_ip=10.0.0.1"; "time_expire=20091225091010"; "total_fee=100";
      "trade_type=JSAPI" ]
    Scenario.untitled) as [Hsign Hprepare];
    [compute_done | compute_done | compute_done |].
  split.
  - rewrite Hsign. vm_compute. reflexivity.
  - destruct Hprepare as (od & Hrun & Hod).
    + intros d k. reflexivity.
    + rewrite prepare_signed_fields. apply list_elem_of_singleton. reflexivity.
    + exists od. split; [exact Hrun|]. rewrite Hod. vm_compute. reflexivity.
Defined.

(** C1, as stated, fails: the signature is not the specified one as soon as
    a value is empty, or a field name followed by a byte below [=] is
    another field name; nor is the [Sign] that [prepare] stores for an order
    without a description. *)
Lemma signature_differs_from_specified :
  (Signer.SignByMD5 Scenario.three_fields "k" = ("EAAF52236D4217F09144D0C54881AFF1", None)
   ∧ Signer.specified_signature Scenario.three_fields "k"
     = "01B1E6E992447824C4BBD48C7AC72ABC")
  ∧ (Signer.SignByMD5 Scenario.prefixed_names "k"
       = ("25D1424C667C9EFAB7D5AF79C73B2412", None)
     ∧ Signer.specified_signature Scenario.prefixed_names "k"
       = "646D10AA3003B577840E9F9F1C80A9B5")
  ∧ ((run (prepare (H := Sample.shop) Scenario.untitled "k")).1
       = Returned (order_set_Sign
                     (assembled_order (H := Sample.shop) Scenario.untitled Sample.nonce
                        "10.0.0.1")
                     "F1466FD84612B6AA581689E34D379F27", None)
     ∧ signed_fields (run (prepare (H := Sample.shop) Scenario.untitled "k")).2
       = [Scenario.untitled_fields]
     ∧ Signer.specified_signature Scenario.untitled_fields "k"
       = "1EDB81C42B0CBDA49A77C62E02406698").
Proof.
  split; [split; vm_compute; reflexivity|].
  split; [split; vm_compute; reflexivity|].
  split; [|split; [by rewrite prepare_signed_fields | vm_compute; reflexivity]].
  rewrite prepare_run. cbv zeta.
  change (String.eqb (Order_IP Scenario.untitled) "") with true. cbv iota.
  unfold signing. cbv zeta. cbn [fst]. f_equal; vm_compute; reflexivity.
Qed.

(** The MD5 test suite of RFC 1321. *)
Example MD5_empty :
  Signer.upper_hex (MD5.sum (Signer.bytes_of "")) = "D41D8CD98F00B204E9800998ECF8427E".
Proof. vm_compute. reflexivity. Qed.

Example MD5_abc :
  Signer.upper_hex (MD5.sum (Signer.bytes_of "abc")) = "900150983CD24FB0D6963F7D28E17F72".
Proof. vm_compute. reflexivity. Qed.

Example MD5_digits :
  Signer.upper_hex (MD5.sum (Signer.bytes_of
    "12345678901234567890123456789012345678901234567890123456789012345678901234567890"))
  = "57EDF4A22BE3C955AC49DA2E2107B67A".
Proof. vm_compute. reflexivity. Qed.

(** ** Decimal integers *)

Lemma digits_value_ge (d : Decimal.uint) (acc : Z) : 0 ≤ acc → acc ≤ digits_value d acc.
Proof.
  revert acc. induction d as [|d IH|d IH|d IH|d IH|d IH|d IH|d IH|d IH|d IH|d IH];
    intros acc Hacc; simpl; [lia|..];
    (etrans; [|apply IH]; lia).
Qed.

Lemma ParseUint_loop_digits (d : Decimal.uint) (acc : Z) :
  0 ≤ acc → digits_value d acc ≤ strconv.maxUint64 →
  strconv.ParseUint_loop (NilEmpty.string_of_uint d) acc = (digits_value d acc, None).
Proof.
  revert acc. unfold strconv.maxUint64.
  induction d as [|d IH|d IH|d IH|d IH|d IH|d IH|d IH|d IH|d IH|d IH];
    intros acc Hacc Hmax; [done|..];
    cbn [NilEmpty.string_of_uint strconv.ParseUint_loop digits_value] in *;
    match goal with
    | H : digits_value d ?a ≤ _ |- _ => pose proof (digits_value_ge d a ltac:(lia))
    end;
    change (strconv.is_digit _) with true; cbn [negb];
    unfold strconv.maxUint64, strconv.digit_val;
    change (Z.of_N (N_of_ascii _)) with 48 || change (Z.of_N (N_of_ascii _)) with 49
      || change (Z.of_N (N_of_ascii _)) with 50 || change (Z.of_N (N_of_ascii _)) with 51
      || change (Z.of_N (N_of_ascii _)) with 52 || change (Z.of_N (N_of_ascii _)) with 53
      || change (Z.of_N (N_of_ascii _)) with 54 || change (Z.of_N (N_of_ascii _)) with 55
      || change (Z.of_N (N_of_ascii _)) with 56 || change (Z.of_N (N_of_ascii _)) with 57;
    change ((2 ^ 64 - 1) / 10 + 1) with 1844674407370955162;
    change (2 ^ 64 - 1) with 18446744073709551615 in *;
    match goal with |- context [?a <=? ?b] => destruct (Z.leb_spec a b); [lia|] end;
    match goal with |- context [?a <? ?b] => destruct (Z.ltb_spec a b); [lia|] end;
    match goal with
    | |- strconv.ParseUint_loop _ ?a = (digits_value _ ?b, _) => replace a with b by lia
    end; apply IH; lia.
Qed.

Lemma digits_value_of_uint_acc (d : Decimal.uint) (acc : positive) :
  digits_value d (Zpos acc) = Zpos (Pos.of_uint_acc d acc).
Proof.
  revert acc. induction d as [|d IH|d IH|d IH|d IH|d IH|d IH|d IH|d IH|d IH|d IH];
    intros acc; [done|..]; cbn [digits_value Pos.of_uint_acc]; rewrite <- IH; f_equal;
    lia.
Qed.

Lemma digits_value_of_uint (d : Decimal.uint) :
  digits_value d 0 = Z.of_N (Pos.of_uint d).
Proof.
  induction d as [|d IH|d IH|d IH|d IH|d IH|d IH|d IH|d IH|d IH|d IH];
    [done|exact IH|..]; cbn [digits_value Pos.of_uint Z.of_N];
    rewrite <- digits_value_of_uint_acc; f_equal.
Qed.

Lemma digits_value_to_uint (p : positive) : digits_value (Pos.to_uint p) 0 = Zpos p.
Proof. by rewrite digits_value_of_uint, Unsigned.of_to. Qed.

(** The decimal digits of a positive number start with a digit. *)
Lemma string_of_to_uint (p : positive) :
  ∃ c s, NilZero.string_of_uint (Pos.to_uint p) = String c s
         ∧ NilEmpty.string_of_uint (Pos.to_uint p) = String c s
         ∧ strconv.is_digit c = true.
Proof.
  pose proof (Unsigned.to_uint_nonnil p) as Hnil.
  destruct (Pos.to_uint p); [done|..]; do 2 eexists; (split; [|split]); reflexivity.
Qed.

Lemma ParseUint_to_uint (p : positive) :
  Zpos p ≤ strconv.maxUint64 →
  strconv.ParseUint10_64 (NilZero.string_of_uint (Pos.to_uint p)) = (Zpos p, None).
Proof.
  intros Hmax. destruct (string_of_to_uint p) as (c & s & Hs & Hs2 & _).
  rewrite Hs. unfold strconv.ParseUint10_64. rewrite <- Hs2.
  rewrite ParseUint_loop_digits;
    [by rewrite digits_value_to_uint | done | by rewrite digits_value_to_uint].
Qed.

(** Every 64-bit integer is read back from its decimal form. *)
Lemma ParseInt_Itoa (z : Z) :
  - 2 ^ 63 ≤ z ≤ 2 ^ 63 - 1 → strconv.ParseInt10_64 (strconv.Itoa z) = (z, None).
Proof.
  intros Hz. destruct z as [|p|p].
  - reflexivity.
  - unfold strconv.Itoa, strconv.FormatInt10. cbn [Z.to_int NilZero.string_of_int].
    destruct (string_of_to_uint p) as (c & s & Hs & _ & Hc).
    pose proof (ParseUint_to_uint p) as Hp. rewrite Hs in *.
    unfold strconv.ParseInt10_64.
    assert (Ascii.eqb c "+" = false ∧ Ascii.eqb c "-" = false) as [-> ->].
    { split; apply Ascii.eqb_neq; intros ->; discriminate Hc. }
    cbn [orb negb andb]. rewrite Hp by (unfold strconv.maxUint64; lia).
    destruct (Z.leb_spec (2 ^ 63) (Z.pos p)); [lia|done].
  - unfold strconv.Itoa, strconv.FormatInt10. cbn [Z.to_int NilZero.string_of_int].
    unfold strconv.ParseInt10_64. cbn [Ascii.eqb Bool.eqb orb negb andb].
    rewrite ParseUint_to_uint by (unfold strconv.maxUint64; lia).
    destruct (Z.ltb_spec (2 ^ 63) (Z.pos p)); [lia|done].
Qed.

(** ** The library models on concrete inputs *)

Example ParseInt_decimal : strconv.ParseInt10_64 "100" = (100, None).
Proof. reflexivity. Qed.

Example ParseInt_signed : strconv.ParseInt10_64 "-50" = (-50, None).
Proof. reflexivity. Qed.

Example ParseInt_empty : strconv.ParseInt10_64 "" = (0, Some strconv.ErrSyntax).
Proof. reflexivity. Qed.

Example ParseInt_letters : strconv.ParseInt10_64 "12a" = (0, Some strconv.ErrSyntax).
Proof. reflexivity. Qed.

Example ParseInt_min :
  strconv.ParseInt10_64 "-9223372036854775808" = (-9223372036854775808, None).
Proof. reflexivity. Qed.

Example ParseInt_below_min :
  strconv.ParseInt10_64 "-9223372036854775809"
    = (-9223372036854775808, Some strconv.ErrRange).
Proof. reflexivity. Qed.

Example Itoa_negative : strconv.Itoa (-120) = "-120".
Proof. reflexivity. Qed.

Example Format_christmas :
  Calendar.Format (Calendar.Unix 1261732210) paymentTimeFormat = "20091225091010".
Proof. vm_compute. reflexivity. Qed.

Example Format_leap_day :
  Calendar.Format (Calendar.Unix 1709210096) paymentTimeFormat = "20240229123456".
Proof. vm_compute. reflexivity. Qed.

Example IsZero_zero : Time_IsZero Calendar.zero = true.
Proof. reflexivity. Qed.

Example newReplay_accept : newReplay true "" = {| replay_Code := "SUCCESS"; replay_Msg := "" |}.
Proof. reflexivity. Qed.

Example newReplay_reject :
  newReplay false "duplicate" = {| replay_Code := "FAIL"; replay_Msg := "duplicate" |}.
Proof. reflexivity. Qed.

(** * Further properties *)

(** ** Order assembly, continued *)

Set Warnings "-clear-no-such-hyp".

Section AssemblyMore.
Context `{Env}.

Ltac lookup_fields :=
  unfold assembled_fields; rewrite !lookup_insert_when;
  repeat match goal with |- context [bool_decide ?P] =>
    first [rewrite (bool_decide_eq_true_2 P) by reflexivity
          |rewrite (bool_decide_eq_false_2 P) by discriminate] end;
  rewrite ?andb_true_r, ?andb_false_r; cbn [negb].

(** What a successful [prepare] went through. *)
Lemma prepare_success (o : Order) (key : string) (od : order) :
  (run (prepare o key)).1 = Returned (od, None) →
  let data := assembled_fields o (util_RandomString 32) (final_IP o) in
  signed_fields (run (prepare o key)).2 = [data]
  ∧ (util_SignByMD5 data key).2 = None
  ∧ od = order_set_Sign (assembled_order o (util_RandomString 32) (final_IP o))
           (util_SignByMD5 data key).1.
Proof.
  rewrite prepare_run. unfold final_IP, signing. cbv zeta.
  destruct (String.eqb (Order_IP o) "").
  - destruct util_FetchIP as [ip [e|]]; [done|]. cbn.
    destruct (util_SignByMD5 _ key) as [sign [e|]]; [done|]. by intros [= <-].
  - cbn. destruct (util_SignByMD5 _ key) as [sign [e|]]; [done|]. by intros [= <-].
Qed.

Lemma dom_insert_when (b : bool) (k v : string) (m : gmap string string) :
  dom (insert_when b k v m) = key_when b k ∪ dom m.
Proof.
  unfold insert_when, key_when. destruct b; [apply dom_insert_L | set_solver].
Qed.

(** X1.  The names in the field set that [prepare] signs are the eleven it
    always signs, empty or not, and those of the optional values that the
    intent sets. *)
Theorem prepare_signed_keys (o : Order) (key : string) (data : gmap string string) :
  data ∈ signed_fields (run (prepare o key)).2 →
  dom data = mandatory_keys ∪ optional_keys o.
Proof.
  intros ->%prepare_signed_fields_elem.
  unfold assembled_fields, mandatory_keys, optional_keys.
  rewrite !dom_insert_when, dom_insert_L, dom_list_to_map_L. cbn [fmap list_fmap fst
    list_to_set foldr]. set_solver.
Qed.

(** X2.  The fields that [prepare] always signs hold the values of the
    intent as they are, empty ones included, with the amount in decimal, the
    trade type [JSAPI], the signature type [MD5] and the nonce it drew. *)
Theorem prepare_mandatory_fields (o : Order) (key : string) (data : gmap string string) :
  data ∈ signed_fields (run (prepare o key)).2 →
  data !! "appid" = Some (Order_AppID o)
  ∧ data !! "body" = Some (Order_Body o)
  ∧ data !! "mch_id" = Some (Order_MchID o)
  ∧ data !! "nonce_str" = Some (util_RandomString 32)
  ∧ data !! "notify_url" = Some (Order_NotifyURL o)
  ∧ data !! "openid" = Some (Order_OpenID o)
  ∧ data !! "out_trade_no" = Some (Order_OutTradeNo o)
  ∧ data !! "total_fee" = Some (strconv.Itoa (Order_TotalFee o))
  ∧ data !! "trade_type" = Some "JSAPI"
  ∧ data !! "sign_type" = Some "MD5".
Proof.
  intros ->%prepare_signed_fields_elem.
  repeat split; lookup_fields; rewrite lookup_insert_ne by discriminate;
    cbn [list_to_map foldr uncurry];
    repeat (first [apply lookup_insert_eq | rewrite lookup_insert_ne by discriminate]).
Qed.

(** X3.  When [prepare] succeeds, the order it returns is the intent with
    the final IP, the nonce it drew and signed, the constants of the
    protocol, and as [Sign] the very string the signer gave for the field
    set. *)
Theorem prepare_signature_stored (o : Order) (key : string) (od : order) :
  (run (prepare o key)).1 = Returned (od, None) →
  ∃ data,
    signed_fields (run (prepare o key)).2 = [data]
    ∧ util_SignByMD5 data key = (order_Sign od, None)
    ∧ data !! "nonce_str" = Some (order_NonceStr od)
    ∧ data !! "spbill_create_ip" = Some (Order_IP (order_Order od))
    ∧ order_Order od = Order_set_IP o (final_IP o)
    ∧ order_TradeType od = "JSAPI"
    ∧ order_SignType od = "MD5".
Proof.
  intros (Hdata & Herr & ->)%prepare_success.
  eexists. split; [exact Hdata|].
  split; [by destruct (util_SignByMD5 _ key); simpl in *; subst|].
  cbn [order_set_Sign assembled_order order_NonceStr order_Order order_TradeType
       order_SignType Order_set_IP Order_IP].
  split; [|split]; [| |done].
  - lookup_fields. rewrite lookup_insert_ne by discriminate.
    cbn [list_to_map foldr uncurry].
    repeat (first [apply lookup_insert_eq | rewrite lookup_insert_ne by discriminate]).
  - lookup_fields. apply lookup_insert_eq.
Qed.

(** X4.  When the signer fails, [prepare] returns its error next to the
    order it had assembled: the intent with the final IP and the nonce, and
    an empty [Sign]. *)
Theorem prepare_signer_failure (o : Order) (key sign : string) (e : error) :
  Order_IP o ≠ "" ∨ util_FetchIP.2 = None →
  util_SignByMD5 (assembled_fields o (util_RandomString 32) (final_IP o)) key
    = (sign, Some e) →
  ∃ od, (run (prepare o key)).1 = Returned (od, Some e)
        ∧ order_Sign od = ""
        ∧ order_NonceStr od = util_RandomString 32
        ∧ order_Order od = Order_set_IP o (final_IP o).
Proof.
  intros Hip Hsign. exists (assembled_order o (util_RandomString 32) (final_IP o)).
  rewrite prepare_run. revert Hsign. unfold final_IP, signing. cbv zeta.
  destruct (String.eqb_spec (Order_IP o) "") as [Hempty|Hset].
  - destruct Hip as [?|Hip]; [done|]. destruct util_FetchIP as [ip err].
    simpl in Hip. subst err. cbn. by intros ->.
  - cbn. by intros ->.
Qed.

Lemma list_to_map_omit_empty (name value : string) (rest : list (string * string)) :
  (list_to_map (omit_empty name value rest) : gmap string string)
  = insert_when (negb (String.eqb value "")) name value (list_to_map rest).
Proof. unfold omit_empty, insert_when. by destruct (String.eqb value ""). Qed.

Lemma eqb_empty_false (s : string) : s ≠ "" → String.eqb s "" = false.
Proof. intros Hs. by apply String.eqb_neq. Qed.

Lemma lookup_insert_when_eq (b : bool) (k v : string) (m : gmap string string) :
  insert_when b k v m !! k = if b then Some v else m !! k.
Proof. unfold insert_when. destruct b; [apply lookup_insert_eq | done]. Qed.

Lemma lookup_insert_when_ne (b : bool) (k v k' : string) (m : gmap string string) :
  k ≠ k' → insert_when b k v m !! k' = m !! k'.
Proof. intros Hk. unfold insert_when. destruct b; [by apply lookup_insert_ne | done]. Qed.

Lemma key_when_subseteq (b : bool) (k : string) : key_when b k ⊆ {[ k ]}.
Proof. unfold key_when. destruct b; set_solver. Qed.

(** Two maps with their names among [names] are equal when they agree on
    each of these. *)
Lemma map_eq_on_names (names : list string) (m1 m2 : gmap string string) :
  dom m1 ⊆ list_to_set names → dom m2 ⊆ list_to_set names →
  Forall (λ k, m1 !! k = m2 !! k) names → m1 = m2.
Proof.
  intros H1 H2 Hall. apply map_eq. intros k.
  destruct (decide (k ∈ names)) as [Hin|Hout].
  - by apply (proj1 (Forall_forall _ _) Hall).
  - rewrite (not_elem_of_dom_1 m1), (not_elem_of_dom_1 m2); [done| |];
      intros Hk; apply Hout; [apply H2 in Hk | apply H1 in Hk]; set_solver.
Qed.

Lemma difference_among (X : gset string) (name : string) (names : list string) :
  X ⊆ list_to_set (name :: names) → X ∖ {[ name ]} ⊆ list_to_set names.
Proof. cbn [list_to_set foldr]. set_solver. Qed.

Ltac names_among :=
  repeat apply union_least; try apply empty_subseteq;
  try (etrans; [apply key_when_subseteq|]);
  apply singleton_subseteq_l, elem_of_list_to_set; compute_done.

Ltac lookup_literal :=
  repeat first [ rewrite lookup_insert_eq
               | rewrite lookup_insert_ne by discriminate
               | rewrite lookup_insert_when_eq
               | rewrite lookup_insert_when_ne by discriminate
               | rewrite lookup_delete_eq
               | rewrite lookup_delete_ne by discriminate
               | rewrite lookup_empty ].

(** X5.  What is signed is what is sent: when [prepare] succeeds with a
    non-empty IP and non-empty renderings of the times that are set, the
    field set it signed holds exactly the elements the XML encoder writes
    for the returned order, but [sign]. *)
Theorem prepare_signs_what_is_sent (o : Order) (key : string) (od : order)
    (data : gmap string string) :
  (run (prepare o key)).1 = Returned (od, None) →
  data ∈ signed_fields (run (prepare o key)).2 →
  final_IP o ≠ "" →
  (Time_IsZero (Order_StartedAt o) = false →
   Time_Format (Order_StartedAt o) paymentTimeFormat ≠ "") →
  (Time_IsZero (Order_ExpiredAt o) = false →
   Time_Format (Order_ExpiredAt o) paymentTimeFormat ≠ "") →
  data = delete "sign" (list_to_map (order_elements od)).
Proof.
  intros (_ & _ & ->)%prepare_success ->%prepare_signed_fields_elem Hip Hstart Hexpire.
  unfold order_elements, assembled_fields.
  cbn [order_set_Sign assembled_order order_NonceStr order_Order order_TradeType
       order_SignType order_NoCredit order_StartedAt order_ExpiredAt order_Sign
       Order_set_IP Order_IP Order_AppID Order_MchID Order_TotalFee Order_NotifyURL
       Order_OpenID Order_Body Order_OutTradeNo Order_Tag Order_Detail Order_Attach].
  repeat first [rewrite list_to_map_cons | rewrite list_to_map_omit_empty].
  rewrite list_to_map_nil.
  rewrite (eqb_empty_false _ Hip).
  change (String.eqb "MD5" "") with false.
  assert (String.eqb (if Order_NoCredit o then "no_credit" else "") ""
          = negb (Order_NoCredit o)) as -> by (by destruct (Order_NoCredit o)).
  assert (String.eqb (if Time_IsZero (Order_StartedAt o) then ""
                      else Time_Format (Order_StartedAt o) paymentTimeFormat) ""
          = Time_IsZero (Order_StartedAt o)) as ->.
  { destruct (Time_IsZero (Order_StartedAt o)); [done|]. by apply eqb_empty_false, Hstart. }
  assert (String.eqb (if Time_IsZero (Order_ExpiredAt o) then ""
                      else Time_Format (Order_ExpiredAt o) paymentTimeFormat) ""
          = Time_IsZero (Order_ExpiredAt o)) as ->.
  { destruct (Time_IsZero (Order_ExpiredAt o)); [done|]. by apply eqb_empty_false, Hexpire. }
  rewrite negb_involutive. cbn [negb].
  apply (map_eq_on_names
    [ "appid"; "mch_id"; "total_fee"; "notify_url"; "openid"; "body"; "out_trade_no";
      "spbill_create_ip"; "goods_tag"; "detail"; "attach"; "nonce_str"; "trade_type";
      "sign_type"; "limit_pay"; "time_start"; "time_expire" ]).
  - repeat first [rewrite dom_insert_when | rewrite dom_insert_L]. rewrite dom_empty_L.
    names_among.
  - rewrite dom_delete_L.
    repeat first [rewrite dom_insert_when | rewrite dom_insert_L]. rewrite dom_empty_L.
    apply difference_among. names_among.
  - cbn [list_to_map foldr uncurry].
    repeat apply Forall_cons_2; [..|apply Forall_nil_2]; lookup_literal;
      try reflexivity.
    + by destruct (Order_NoCredit o).
    + by destruct (Time_IsZero (Order_StartedAt o)).
    + by destruct (Time_IsZero (Order_ExpiredAt o)).
Qed.

End AssemblyMore.

Lemma Sample_fields_signed :
  Sample.fields ∈ signed_fields (run (prepare (H := Sample.shop) Sample.intent "k")).2.
Proof. rewrite prepare_signed_fields. apply list_elem_of_singleton. reflexivity. Qed.

Lemma Sample_prepare_result :
  (run (prepare (H := Sample.shop) Sample.intent "k")).1 = Returned (Sample.request, None).
Proof. by rewrite Sample_prepare_run. Qed.

(** The names signed for the sample order. *)
Lemma prepare_signed_keys_witness :
  dom Sample.fields = mandatory_keys ∪ optional_keys Sample.intent.
Proof.
  apply (prepare_signed_keys (H := Sample.shop) Sample.intent "k").
  apply Sample_fields_signed.
Defined.

(** The fields always signed, for the sample order. *)
Lemma prepare_mandatory_fields_witness :
  Sample.fields !! "appid" = Some "wx1"
  ∧ Sample.fields !! "body" = Some "Item"
  ∧ Sample.fields !! "mch_id" = Some "10000"
  ∧ Sample.fields !! "nonce_str" = Some "5K8264ILTKCH16CQ2502SI8ZNMTM67VS"
  ∧ Sample.fields !! "notify_url" = Some "https://x/cb"
  ∧ Sample.fields !! "openid" = Some "oUser1"
  ∧ Sample.fields !! "out_trade_no" = Some "ON001"
  ∧ Sample.fields !! "total_fee" = Some "100"
  ∧ Sample.fields !! "trade_type" = Some "JSAPI"
  ∧ Sample.fields !! "sign_type" = Some "MD5".
Proof.
  apply (prepare_mandatory_fields (H := Sample.shop) Sample.intent "k").
  apply Sample_fields_signed.
Defined.

(** The sample order, signed. *)
Lemma prepare_signature_stored_witness :
  ∃ data,
    signed_fields (run (prepare (H := Sample.shop) Sample.intent "k")).2 = [data]
    ∧ util_SignByMD5 (Env := Sample.shop) data "k"
      = ("C3C32EE7B6EB43AC9E03B63BADD0B232", None)
    ∧ data !! "nonce_str" = Some "5K8264ILTKCH16CQ2502SI8ZNMTM67VS"
    ∧ data !! "spbill_create_ip" = Some "10.0.0.1"
    ∧ order_Order Sample.request = Order_set_IP Sample.intent "10.0.0.1"
    ∧ order_TradeType Sample.request = "JSAPI"
    ∧ order_SignType Sample.request = "MD5".
Proof.
  apply (prepare_signature_stored (H := Sample.shop) Sample.intent "k" Sample.request).
  apply Sample_prepare_result.
Defined.

(** The sample order when the signer fails. *)
Lemma prepare_signer_failure_witness :
  ∃ od, (run (prepare (H := Scenario.unsigned) Sample.intent "k")).1
          = Returned (od, Some (lib_error "md5: write failed"))
        ∧ order_Sign od = ""
        ∧ order_NonceStr od = "5K8264ILTKCH16CQ2502SI8ZNMTM67VS"
        ∧ order_Order od = Order_set_IP Sample.intent "10.0.0.1".
Proof.
  apply (prepare_signer_failure (H := Scenario.unsigned) Sample.intent "k" "");
    [right; reflexivity | reflexivity].
Defined.

(** The sample order: its signed fields are its elements on the wire. *)
Lemma prepare_signs_what_is_sent_witness :
  Sample.fields = delete "sign" (list_to_map (order_elements Sample.request)).
Proof.
  apply (prepare_signs_what_is_sent (H := Sample.shop) Sample.intent "k").
  - apply Sample_prepare_result.
  - apply Sample_fields_signed.
  - vm_compute. discriminate.
  - intros Hzero. vm_compute in Hzero. discriminate Hzero.
  - intros _. vm_compute. discriminate.
Defined.

(** ** The status check and the submission, continued *)

Lemma Check_None_inv (res : response) :
  Check res = None → ReturnCode res = "SUCCESS" ∧ ResultCode res = "SUCCESS".
Proof.
  intros Hnone.
  destruct (decide (ReturnCode res = "SUCCESS")) as [Hr|Hr];
    [|by rewrite Check_transport in Hnone].
  destruct (decide (ResultCode res = "SUCCESS")) as [Hs|Hs];
    [done | by rewrite Check_business in Hnone].
Qed.

(** X6.  [Check] passes exactly when both status codes are the bytes
    [SUCCESS]; when both are wrong, the error is the one of the transport
    tier. *)
Theorem Check_passes_iff (res : response) :
  (Check res = None ↔ ReturnCode res = "SUCCESS" ∧ ResultCode res = "SUCCESS")
  ∧ (ReturnCode res ≠ "SUCCESS" →
     Check res = Some (errors_New ("交易失败: " +:+ ReturnMsg res))).
Proof.
  split; [|apply Check_transport].
  split; [apply Check_None_inv|]. intros [Hr Hs]. by apply Check_success.
Qed.

(** A reply that failed at both tiers. *)
Lemma Check_passes_iff_witness :
  Check {| ReturnCode := "FAIL"; ReturnMsg := "busy"; ResultCode := "FAIL";
           ErrCode := "SYSTEMERROR"; ErrCodeDes := "retry" |}
  = Some (errors_New "交易失败: busy").
Proof.
  apply (Check_passes_iff {| ReturnCode := "FAIL"; ReturnMsg := "busy";
                             ResultCode := "FAIL"; ErrCode := "SYSTEMERROR";
                             ErrCodeDes := "retry" |}).
  discriminate.
Defined.

Section Submission.
Context `{Env}.

(** [Unify] in closed form, from what [prepare] did. *)
Lemma Unify_run (o : Order) (key : string) :
  run (Unify o key) =
    match run (prepare o key) with
    | (Returned (reqData, Some e), t) => (Returned (zero_PaidResponse, Some e), t)
    | (Returned (reqData, None), t) =>
        let url := baseURL +:+ unifyAPI in
        (Returned
           match util_PostXML url reqData with
           | (data, Some e) => (zero_PaidResponse, Some e)
           | (data, None) =>
               match xml_Unmarshal_paidResponse data with
               | (res, Some e) => (zero_PaidResponse, Some e)
               | (res, None) =>
                   match Check (paidResponse_response res) with
                   | Some e => (zero_PaidResponse, Some e)
                   | None => (paidResponse_PaidResponse res, None)
                   end
               end
           end,
         (t ++ [PostXML_called url reqData])%list)
    | (Panicked msg, t) => (Panicked msg, t)
    end.
Proof.
  unfold run, Unify, mbind, M_bind, bind.
  destruct (prepare o key []) as [[[reqData [e|]]|msg] t]; [done| |done].
  unfold call. destruct (util_PostXML _ reqData) as [data [e|]]; [done|].
  destruct (xml_Unmarshal_paidResponse data) as [res [e|]]; [done|].
  by destruct (Check _).
Qed.

Lemma prepare_returns (o : Order) (key : string) :
  ∃ od err, (run (prepare o key)).1 = Returned (od, err).
Proof.
  rewrite prepare_run. unfold signing. cbv zeta.
  destruct (String.eqb (Order_IP o) ""); [destruct util_FetchIP as [ip [e|]]|];
    cbn; try destruct (util_SignByMD5 _ key) as [sign [e'|]]; eauto.
Qed.

(** X7.  [Unify] never panics, and whenever it returns an error the
    [PaidResponse] next to it is the zero value: no part of a reply comes
    back with an error. *)
Theorem Unify_no_partial_result (o : Order) (key : string) :
  ∃ pres err, (run (Unify o key)).1 = Returned (pres, err)
              ∧ (err ≠ None → pres = zero_PaidResponse).
Proof.
  rewrite Unify_run. destruct (prepare_returns o key) as (od & err & Hp).
  destruct (run (prepare o key)) as [r t]. simpl in Hp. subst r.
  destruct err as [e|]; [by do 2 eexists|]. cbv zeta. cbn [fst].
  destruct (util_PostXML _ od) as [data [e|]]; [by do 2 eexists|].
  destruct (xml_Unmarshal_paidResponse data) as [res [e|]]; [by do 2 eexists|].
  destruct (Check _); by do 2 eexists.
Qed.

(** X8.  When [prepare] fails, be it the IP resolver or the signer, [Unify]
    returns that error and makes no call of its own: nothing is posted. *)
Theorem Unify_prepare_failure_never_posts (o : Order) (key : string) (od : order)
    (e : error) :
  (run (prepare o key)).1 = Returned (od, Some e) →
  (run (Unify o key)).1 = Returned (zero_PaidResponse, Some e)
  ∧ (run (Unify o key)).2 = (run (prepare o key)).2
  ∧ posted (run (Unify o key)).2 = [].
Proof.
  intros Hp. rewrite Unify_run. revert Hp. rewrite prepare_run. unfold signing. cbv zeta.
  destruct (String.eqb (Order_IP o) ""); [destruct util_FetchIP as [ip [e'|]]|]; cbn;
    try destruct (util_SignByMD5 _ key) as [sign [e''|]]; intros [= <- <-] || intros [=];
    done.
Qed.

(** X9.  When [prepare] succeeds, [Unify] posts once, to
    [https://api.mch.weixin.qq.com/pay/unifiedorder], the very order that
    [prepare] returned, whatever the gateway answers. *)
Theorem Unify_posts_once (o : Order) (key : string) (od : order) :
  (run (prepare o key)).1 = Returned (od, None) →
  posted (run (Unify o key)).2
    = [("https://api.mch.weixin.qq.com/pay/unifiedorder", od)].
Proof.
  intros Hp. rewrite Unify_run. revert Hp. rewrite prepare_run. unfold signing. cbv zeta.
  destruct (String.eqb (Order_IP o) ""); [destruct util_FetchIP as [ip [e'|]]|]; cbn;
    try destruct (util_SignByMD5 _ key) as [sign [e''|]]; intros [= <-] || intros [=];
    done.
Qed.

(** X10.  After a successful [prepare], an error of the POST is returned as
    it is, and an error of the XML decoder is returned as it is, before the
    status of the reply is looked at. *)
Theorem Unify_transport_errors (o : Order) (key : string) (od : order) :
  (run (prepare o key)).1 = Returned (od, None) →
  (∀ data e, util_PostXML (baseURL +:+ unifyAPI) od = (data, Some e) →
     (run (Unify o key)).1 = Returned (zero_PaidResponse, Some e))
  ∧ (∀ data res e, util_PostXML (baseURL +:+ unifyAPI) od = (data, None) →
       xml_Unmarshal_paidResponse data = (res, Some e) →
       (run (Unify o key)).1 = Returned (zero_PaidResponse, Some e)).
Proof.
  intros Hp. rewrite Unify_run. destruct (run (prepare o key)) as [r t].
  simpl in Hp. subst r. cbv zeta. cbn [fst]. split.
  - by intros data e ->.
  - by intros data res e -> ->.
Qed.

End Submission.

(** The sample order with the IP resolver down: nothing is posted. *)
Lemma Unify_prepare_failure_never_posts_witness :
  (run (Unify (H := Sample.offline) Sample.intent "k")).1
    = Returned (zero_PaidResponse, Some (lib_error "no route to host"))
  ∧ (run (Unify (H := Sample.offline) Sample.intent "k")).2
    = (run (prepare (H := Sample.offline) Sample.intent "k")).2
  ∧ posted (run (Unify (H := Sample.offline) Sample.intent "k")).2 = [].
Proof.
  apply (Unify_prepare_failure_never_posts (H := Sample.offline) Sample.intent "k"
           (unresolved_order Sample.intent Sample.nonce)).
  reflexivity.
Defined.

(** The sample order is posted once. *)
Lemma Unify_posts_once_witness :
  posted (run (Unify (H := Sample.shop) Sample.intent "k")).2
    = [("https://api.mch.weixin.qq.com/pay/unifiedorder", Sample.request)].
Proof.
  apply (Unify_posts_once (H := Sample.shop) Sample.intent "k" Sample.request).
  apply Sample_prepare_result.
Defined.

Lemma Scenario_prepare_result (posted_reply : bytes * option error) :
  (run (prepare (H := gateway Scenario.address Signer.SignByMD5 posted_reply 1700000000)
          Sample.intent "k")).1
  = Returned (Sample.request, None).
Proof.
  rewrite prepare_run. cbv zeta.
  change (String.eqb (Order_IP Sample.intent) "") with true. cbv iota.
  unfold signing. cbv zeta. cbn [fst]. f_equal; vm_compute; reflexivity.
Qed.

(** The sample order when the gateway cannot be reached, and when it answers
    something that is not XML. *)
Lemma Unify_transport_errors_witness :
  (run (Unify (H := Scenario.unreachable) Sample.intent "k")).1
    = Returned (zero_PaidResponse, Some (lib_error "connection refused"))
  ∧ (run (Unify (H := Scenario.garbled) Sample.intent "k")).1
    = Returned (zero_PaidResponse, Some Wire.syntax_error).
Proof.
  split.
  - destruct (Unify_transport_errors (H := Scenario.unreachable) Sample.intent "k"
                Sample.request (Scenario_prepare_result _)) as [Hpost _].
    apply (Hpost []). reflexivity.
  - destruct (Unify_transport_errors (H := Scenario.garbled) Sample.intent "k"
                Sample.request (Scenario_prepare_result _)) as [_ Hdecode].
    apply (Hdecode (Wire.to_bytes "Bad Gateway")
             (Wire.Unmarshal_paidResponse (Wire.to_bytes "Bad Gateway")).1);
      [reflexivity | vm_compute; reflexivity].
Defined.

(** ** Notifications, continued *)

Section Handler.
Context `{Env}.

(** A run that reached the decision function ended with the
    acknowledgement. *)
Lemma decided_run (res : ResponseWriter) (req : Request)
    (fuck : PaidNotify -> bool * string) (n : PaidNotify) :
  decided (run (HandlePaidNotify res req fuck)).2 = [n] →
  run (HandlePaidNotify res req fuck) = acknowledge res fuck n.
Proof.
  rewrite HandlePaidNotify_run.
  destruct (Body_ReadAll req) as [body [e|]]; [done|].
  destruct (xml_Unmarshal_paidNotify body) as [ntf [e|]]; [done|].
  destruct (extract_coupons body ntf) as [[e|ntf']|msg]; [done| |done].
  destruct (Check _); [done|]. rewrite decided_acknowledge. by intros [= ->].
Qed.

(** X11.  Whatever the request, [HandlePaidNotify] makes no call at all, or
    calls the decision function once and returns an error, or calls it once,
    sets the status 200 and writes one body, in that order, and returns what
    [Write] returned. *)
Theorem HandlePaidNotify_calls (res : ResponseWriter) (req : Request)
    (fuck : PaidNotify -> bool * string) :
  let outcome := (run (HandlePaidNotify res req fuck)).1 in
  let calls := (run (HandlePaidNotify res req fuck)).2 in
  calls = []
  ∨ (∃ n e, calls = [callback_called n] ∧ outcome = Returned (Some e))
  ∨ (∃ n b, calls = [callback_called n; WriteHeader_called 200; Write_called b]
            ∧ outcome = Returned (Write_err res b)).
Proof.
  cbv zeta. rewrite HandlePaidNotify_run.
  destruct (Body_ReadAll req) as [body [e|]]; [by left|].
  destruct (xml_Unmarshal_paidNotify body) as [ntf [e|]]; [by left|].
  destruct (extract_coupons body ntf) as [[e|ntf']|msg]; [by left| |by left].
  destruct (Check _); [by left|]. right. unfold acknowledge.
  destruct (xml_Marshal_replay _) as [b [e|]]; [left|right]; by do 2 eexists.
Qed.

(** X12.  Once the decision function has answered [(ok, msg)] for a
    notification and the reply is encoded, the body written is the encoding
    of the reply with code [SUCCESS] when [ok] and [FAIL] otherwise, and with
    [msg] as its message; the handler returns what [Write] returned. *)
Theorem HandlePaidNotify_acknowledges (res : ResponseWriter) (req : Request)
    (fuck : PaidNotify -> bool * string) (n : PaidNotify) (ok : bool) (msg : string)
    (b : bytes) :
  decided (run (HandlePaidNotify res req fuck)).2 = [n] →
  fuck n = (ok, msg) →
  xml_Marshal_replay {| replay_Code := if ok then "SUCCESS" else "FAIL";
                        replay_Msg := msg |} = (b, None) →
  run (HandlePaidNotify res req fuck)
    = (Returned (Write_err res b),
       [callback_called n; WriteHeader_called 200; Write_called b]).
Proof.
  intros Hn Hfuck Hb. rewrite (decided_run _ _ _ _ Hn).
  unfold acknowledge. rewrite Hfuck. cbn [fst snd]. unfold newReplay. by rewrite Hb.
Qed.

(** X13.  When the reply cannot be encoded, the decision function has been
    called all the same, nothing is written, and the error of the encoder is
    returned. *)
Theorem HandlePaidNotify_encoder_failure (res : ResponseWriter) (req : Request)
    (fuck : PaidNotify -> bool * string) (n : PaidNotify) (b : bytes) (e : error) :
  decided (run (HandlePaidNotify res req fuck)).2 = [n] →
  xml_Marshal_replay (newReplay (fuck n).1 (fuck n).2) = (b, Some e) →
  run (HandlePaidNotify res req fuck) = (Returned (Some e), [callback_called n]).
Proof.
  intros Hn Hb. rewrite (decided_run _ _ _ _ Hn). unfold acknowledge. by rewrite Hb.
Qed.

(** X14.  An error of reading the body, or of decoding it, is returned as it
    is, and nothing else is done with the request: no coupon is looked up, no
    decision asked, nothing written. *)
Theorem HandlePaidNotify_early_errors (res : ResponseWriter) (req : Request)
    (fuck : PaidNotify -> bool * string) (body : bytes) (e : error) :
  (Body_ReadAll req = (body, Some e) →
     run (HandlePaidNotify res req fuck) = (Returned (Some e), []))
  ∧ (∀ ntf, Body_ReadAll req = (body, None) →
       xml_Unmarshal_paidNotify body = (ntf, Some e) →
       run (HandlePaidNotify res req fuck) = (Returned (Some e), [])).
Proof.
  rewrite HandlePaidNotify_run. split.
  - by intros ->.
  - by intros ntf -> ->.
Qed.

(** X15.  When coupons are declared and the tree parser rejects the body,
    its error is returned before the status is looked at, and the decision
    function is not called. *)
Theorem HandlePaidNotify_tree_error (res : ResponseWriter) (req : Request)
    (fuck : PaidNotify -> bool * string) (body : bytes) (ntf : paidNotify)
    (doc : Element) (e : error) :
  Body_ReadAll req = (body, None) →
  xml_Unmarshal_paidNotify body = (ntf, None) →
  0 < PaidNotify_CouponCount (paidNotify_PaidNotify ntf) →
  etree_ReadFromBytes body = (doc, Some e) →
  run (HandlePaidNotify res req fuck) = (Returned (Some e), []).
Proof.
  intros Hbody Hntf Hcount Hdoc. rewrite HandlePaidNotify_run, Hbody, Hntf.
  unfold extract_coupons. apply Z.ltb_lt in Hcount. by rewrite Hcount, Hdoc.
Qed.

(** X16.  A declared count of zero or less leaves the notification as it was
    decoded: the status error is returned if the check fails, and otherwise
    the decision function receives the decoded notification, whatever the
    tree parser would have said. *)
Theorem HandlePaidNotify_no_coupons (res : ResponseWriter) (req : Request)
    (fuck : PaidNotify -> bool * string) (body : bytes) (ntf : paidNotify) :
  Body_ReadAll req = (body, None) →
  xml_Unmarshal_paidNotify body = (ntf, None) →
  PaidNotify_CouponCount (paidNotify_PaidNotify ntf) ≤ 0 →
  run (HandlePaidNotify res req fuck) =
    match Check (paidNotify_response ntf) with
    | Some e => (Returned (Some e), [])
    | None => acknowledge res fuck (paidNotify_PaidNotify ntf)
    end.
Proof.
  intros Hbody Hntf Hcount. rewrite HandlePaidNotify_run, Hbody, Hntf.
  unfold extract_coupons.
  by destruct (Z.ltb_spec 0 (PaidNotify_CouponCount (paidNotify_PaidNotify ntf))); [lia|].
Qed.

(** X17.  When coupons are declared and the root element of the body is not
    named [xml], the handler panics: the root it selects is nil. *)
Theorem HandlePaidNotify_foreign_root_panics (res : ResponseWriter) (req : Request)
    (fuck : PaidNotify -> bool * string) (body : bytes) (ntf : paidNotify)
    (doc : Element) :
  Body_ReadAll req = (body, None) →
  xml_Unmarshal_paidNotify body = (ntf, None) →
  0 < PaidNotify_CouponCount (paidNotify_PaidNotify ntf) →
  etree_ReadFromBytes body = (doc, None) →
  find_child "xml" (Child doc) = None →
  run (HandlePaidNotify res req fuck) = (Panicked nil_dereference, []).
Proof.
  intros Hbody Hntf Hcount Hdoc Hroot. rewrite HandlePaidNotify_run, Hbody, Hntf.
  unfold extract_coupons. apply Z.ltb_lt in Hcount. by rewrite Hcount, Hdoc, Hroot.
Qed.

Lemma extract_coupons_items (body : bytes) (ntf ntf' : paidNotify) :
  extract_coupons body ntf = Returned (inr ntf') →
  ∃ ms, ntf' = with_coupons ntf ms
        ∧ Z.of_nat (List.length ms)
          = Z.max 0 (PaidNotify_CouponCount (paidNotify_PaidNotify ntf)).
Proof.
  unfold extract_coupons.
  destruct (Z.ltb_spec 0 (PaidNotify_CouponCount (paidNotify_PaidNotify ntf))) as [Hc|Hc].
  - destruct (etree_ReadFromBytes body) as [doc [e|]]; [done|].
    destruct (find_child "xml" (Child doc)) as [root|]; [|done].
    destruct (mapM _ _) as [ms|] eqn:Hms; [|done]. intros [= <-]. exists ms.
    split; [done|]. apply length_mapM in Hms. rewrite <- Hms, length_seqZ. lia.
  - intros [= <-]. exists []. rewrite with_coupons_nil. split; [done|]. simpl. lia.
Qed.

(** X18.  The notification handed to the decision function is the decoded
    one with coupons appended and nothing else changed, and the number of
    coupons appended is the declared count (none for a count below zero). *)
Theorem HandlePaidNotify_decides_on_decoded (res : ResponseWriter) (req : Request)
    (fuck : PaidNotify -> bool * string) (body : bytes) (ntf : paidNotify)
    (n : PaidNotify) :
  Body_ReadAll req = (body, None) →
  xml_Unmarshal_paidNotify body = (ntf, None) →
  decided (run (HandlePaidNotify res req fuck)).2 = [n] →
  ∃ ms, n = PaidNotify_set_Coupons (paidNotify_PaidNotify ntf)
              (PaidNotify_Coupons (paidNotify_PaidNotify ntf) ++ ms)
        ∧ Z.of_nat (List.length ms)
          = Z.max 0 (PaidNotify_CouponCount (paidNotify_PaidNotify ntf)).
Proof.
  intros Hbody Hntf. rewrite HandlePaidNotify_run, Hbody, Hntf.
  destruct (extract_coupons body ntf) as [[e|ntf']|msg] eqn:Hx; [done| |done].
  destruct (Check _); [done|]. rewrite decided_acknowledge. intros [= <-].
  destruct (extract_coupons_items _ _ _ Hx) as (ms & -> & Hlen). by exists ms.
Qed.

(** X19.  A notification that fails the status check is never reported as
    handled: the handler makes no call and does not return nil; it returns
    an error or panics. *)
Theorem HandlePaidNotify_failed_status_final (res : ResponseWriter) (req : Request)
    (fuck : PaidNotify -> bool * string) (body : bytes) (ntf : paidNotify) :
  Body_ReadAll req = (body, None) →
  xml_Unmarshal_paidNotify body = (ntf, None) →
  ReturnCode (paidNotify_response ntf) ≠ "SUCCESS"
  ∨ ResultCode (paidNotify_response ntf) ≠ "SUCCESS" →
  (run (HandlePaidNotify res req fuck)).2 = []
  ∧ (run (HandlePaidNotify res req fuck)).1 ≠ Returned None.
Proof.
  intros Hbody Hntf Hfail%Check_fails_iff. destruct Hfail as [e He].
  rewrite HandlePaidNotify_run, Hbody, Hntf.
  destruct (extract_coupons body ntf) as [[e'|ntf']|msg] eqn:Hx; [done| |done].
  by rewrite (extract_coupons_response _ _ _ Hx), He.
Qed.

End Handler.

(** X20.  A coupon amount written as the decimal form of a 64-bit integer is
    read back as that integer. *)
Theorem coupon_fee_reads_back (root : Element) (i v : Z) (a b : Element)
    (t : list event) :
  find_child ("coupon_id_" +:+ strconv.Itoa i) (Child root) = Some a →
  find_child ("coupon_fee_" +:+ strconv.Itoa i) (Child root) = Some b →
  CharData b = strconv.Itoa v →
  - 2 ^ 63 ≤ v ≤ 2 ^ 63 - 1 →
  NewCouponResponseModel (Some root) "coupon_id_%d" "coupon_fee_%d" [i] t
    = (Returned {| CouponId := CharData a; CouponFee := v |}, t).
Proof.
  intros Ha Hb Htext Hv. rewrite NewCouponResponseModel_run. unfold coupon_at.
  by rewrite Sprintf_coupon_id, Sprintf_coupon_fee, Ha, Hb, Htext, ParseInt_Itoa.
Qed.

(** The sample notification without coupons, accepted: the acknowledgement
    written. *)
Lemma HandlePaidNotify_acknowledges_witness :
  run (HandlePaidNotify (H := Sample.shop) Sample.writer
         (Sample.post Scenario.notify_plain) Scenario.refuse)
  = (Returned None,
     [callback_called (paidNotify_PaidNotify
                         (Wire.Unmarshal_paidNotify Scenario.notify_plain).1);
      WriteHeader_called 200;
      Write_called (Wire.to_bytes
        ("<replay><return_code>FAIL</return_code>"
         +:+ "<return_msg>duplicate</return_msg></replay>"))]).
Proof.
  apply (HandlePaidNotify_acknowledges (H := Sample.shop) Sample.writer
           (Sample.post Scenario.notify_plain) Scenario.refuse
           (paidNotify_PaidNotify (Wire.Unmarshal_paidNotify Scenario.notify_plain).1)
           false "duplicate");
    [vm_compute; reflexivity | reflexivity | vm_compute; reflexivity].
Defined.

(** The same notification when the reply cannot be encoded. *)
Lemma HandlePaidNotify_encoder_failure_witness :
  run (HandlePaidNotify (H := Scenario.mute) Sample.writer
         (Sample.post Scenario.notify_plain) Sample.accept)
  = (Returned (Some (lib_error "xml: unsupported type")),
     [callback_called (paidNotify_PaidNotify
                         (Wire.Unmarshal_paidNotify Scenario.notify_plain).1)]).
Proof.
  apply (HandlePaidNotify_encoder_failure (H := Scenario.mute) Sample.writer
           (Sample.post Scenario.notify_plain) Sample.accept _ []);
    [vm_compute; reflexivity | reflexivity].
Defined.

(** A body that cannot be read, and a body that is not XML. *)
Lemma HandlePaidNotify_early_errors_witness :
  run (HandlePaidNotify (H := Sample.shop) Sample.writer Scenario.broken_request
         Sample.accept)
    = (Returned (Some (lib_error "unexpected EOF")), [])
  ∧ run (HandlePaidNotify (H := Sample.shop) Sample.writer
           (Sample.post (Wire.to_bytes "Bad Gateway")) Sample.accept)
    = (Returned (Some Wire.syntax_error), []).
Proof.
  split.
  - apply (HandlePaidNotify_early_errors (H := Sample.shop) _ _ _ []). reflexivity.
  - destruct (HandlePaidNotify_early_errors (H := Sample.shop) Sample.writer
                (Sample.post (Wire.to_bytes "Bad Gateway")) Sample.accept
                (Wire.to_bytes "Bad Gateway") Wire.syntax_error) as [_ Hdecode].
    apply (Hdecode (Wire.Unmarshal_paidNotify (Wire.to_bytes "Bad Gateway")).1);
      [reflexivity | vm_compute; reflexivity].
Defined.

(** The sample notification with two coupons when the tree parser rejects
    it. *)
Lemma HandlePaidNotify_tree_error_witness :
  run (HandlePaidNotify (H := Scenario.treeless) Sample.writer
         (Sample.post (Sample.notify_coupons "S")) Sample.accept)
  = (Returned (Some Wire.syntax_error), []).
Proof.
  apply (HandlePaidNotify_tree_error (H := Scenario.treeless) _ _ _
           (Sample.notify_coupons "S")
           (Wire.Unmarshal_paidNotify (Sample.notify_coupons "S")).1
           (mkElement "" "" []));
    [reflexivity | vm_compute; reflexivity | vm_compute; reflexivity | reflexivity].
Defined.

(** A notification that declares -1 coupons and a failed business status. *)
Lemma HandlePaidNotify_no_coupons_witness :
  run (HandlePaidNotify (H := Sample.shop) Sample.writer
         (Sample.post Scenario.notify_negative) Sample.accept)
  = (Returned (Some (errors_New "发生错误: refused")), []).
Proof.
  rewrite (HandlePaidNotify_no_coupons (H := Sample.shop) Sample.writer
             (Sample.post Scenario.notify_negative) Sample.accept
             Scenario.notify_negative
             (Wire.Unmarshal_paidNotify Scenario.notify_negative).1);
    [vm_compute; reflexivity | reflexivity | vm_compute; reflexivity
    | vm_compute; discriminate].
Defined.

(** A notification with one coupon under a root element named [notify]. *)
Lemma HandlePaidNotify_foreign_root_panics_witness :
  run (HandlePaidNotify (H := Sample.shop) Sample.writer
         (Sample.post Scenario.notify_foreign_root) Sample.accept)
  = (Panicked nil_dereference, []).
Proof.
  apply (HandlePaidNotify_foreign_root_panics (H := Sample.shop) _ _ _
           Scenario.notify_foreign_root
           (Wire.Unmarshal_paidNotify Scenario.notify_foreign_root).1
           (Wire.ReadFromBytes Scenario.notify_foreign_root).1);
    [reflexivity | vm_compute; reflexivity | vm_compute; reflexivity
    | vm_compute; reflexivity | vm_compute; reflexivity].
Defined.

Lemma Sample_coupons_decided :
  decided (run (HandlePaidNotify (H := Sample.shop) Sample.writer
                  (Sample.post (Sample.notify_coupons "S")) Sample.accept)).2
  = [PaidNotify_set_Coupons
       (paidNotify_PaidNotify (Wire.Unmarshal_paidNotify (Sample.notify_coupons "S")).1)
       [ {| CouponId := "A"; CouponFee := 100 |}; {| CouponId := "B"; CouponFee := 50 |} ]].
Proof. vm_compute. reflexivity. Qed.

(** The sample notification with two coupons: two are appended. *)
Lemma HandlePaidNotify_decides_on_decoded_witness :
  ∃ ms,
    PaidNotify_set_Coupons
      (paidNotify_PaidNotify (Wire.Unmarshal_paidNotify (Sample.notify_coupons "S")).1)
      [ {| CouponId := "A"; CouponFee := 100 |}; {| CouponId := "B"; CouponFee := 50 |} ]
    = PaidNotify_set_Coupons
        (paidNotify_PaidNotify (Wire.Unmarshal_paidNotify (Sample.notify_coupons "S")).1)
        ([] ++ ms)
    ∧ Z.of_nat (List.length ms) = Z.max 0 2.
Proof.
  apply (HandlePaidNotify_decides_on_decoded (H := Sample.shop) Sample.writer
           (Sample.post (Sample.notify_coupons "S")) Sample.accept
           (Sample.notify_coupons "S")
           (Wire.Unmarshal_paidNotify (Sample.notify_coupons "S")).1);
    [reflexivity | vm_compute; reflexivity | apply Sample_coupons_decided].
Defined.

(** The sample notification that failed at the transport tier. *)
Lemma HandlePaidNotify_failed_status_final_witness :
  (run (HandlePaidNotify (H := Sample.shop) Sample.writer
          (Sample.post Sample.notify_failed) Sample.accept)).2 = []
  ∧ (run (HandlePaidNotify (H := Sample.shop) Sample.writer
            (Sample.post Sample.notify_failed) Sample.accept)).1 ≠ Returned None.
Proof.
  apply (HandlePaidNotify_failed_status_final (H := Sample.shop) _ _ _
           Sample.notify_failed (Wire.Unmarshal_paidNotify Sample.notify_failed).1);
    [reflexivity | vm_compute; reflexivity | left; vm_compute; discriminate].
Defined.

(** A coupon of 100. *)
Lemma coupon_fee_reads_back_witness :
  NewCouponResponseModel
    (Some (mkElement "xml" "" [mkElement "coupon_id_0" "A" [];
                               mkElement "coupon_fee_0" "100" []]))
    "coupon_id_%d" "coupon_fee_%d" [0] []
  = (Returned {| CouponId := "A"; CouponFee := 100 |}, []).
Proof.
  apply (coupon_fee_reads_back
           (mkElement "xml" "" [mkElement "coupon_id_0" "A" [];
                                mkElement "coupon_fee_0" "100" []])
           0 100 (mkElement "coupon_id_0" "A" []) (mkElement "coupon_fee_0" "100" []) []);
    [reflexivity | reflexivity | reflexivity | lia].
Defined.

(** ** Client parameters, continued *)

(** X21.  The [Timestamp] of the parameters is the decimal form of the Unix
    seconds of the clock: parsed as a 64-bit integer, it gives them back. *)
Theorem GetParams_timestamp_reads_back `{Env} (appID key nonceStr prepayID : string)
    (p : Params) (err : option error) :
  len nonceStr ≤ 32 →
  - 2 ^ 63 ≤ time_Now_Unix ≤ 2 ^ 63 - 1 →
  (run (GetParams appID key nonceStr prepayID)).1 = Returned (p, err) →
  strconv.ParseInt10_64 (Params_Timestamp p) = (time_Now_Unix, None).
Proof.
  intros Hlen Hnow. unfold run, GetParams. apply Z.ltb_ge in Hlen. rewrite Hlen.
  unfold mbind, M_bind, bind, call, ret. cbn [fst].
  destruct (util_SignByMD5 _ key) as [sign e]. intros [= <- _].
  cbn [Params_Timestamp]. by apply ParseInt_Itoa.
Qed.

(** The parameters of the sample shop. *)
Lemma GetParams_timestamp_reads_back_witness :
  strconv.ParseInt10_64 "1700000000" = (1700000000, None).
Proof.
  apply (GetParams_timestamp_reads_back (H := Sample.shop) "wx1" "k" Sample.nonce
           "wx201410272009395522657a690389285100"
           {| Params_Timestamp := "1700000000";
              Params_NonceStr := "5K8264ILTKCH16CQ2502SI8ZNMTM67VS";
              Params_SignType := "MD5";
              Params_PaySign := "D353A586AEE8CAB3A904562FBAA701F7";
              Params_Package := "prepay_id=wx201410272009395522657a690389285100" |}
           None);
    [discriminate | vm_compute; split; discriminate | vm_compute; reflexivity].
Defined.
